(** * The client factory of pkg/apiclient (client_factory.go)

    A shallow embedding of [Client], the lazily resolving and memoizing
    factory of API handles, and of the two constructors that build it
    from explicit arguments or from the process environment.

    The factory talks to three things it does not own: the SDK's
    [NewClient], the SDK's [Spaces.GetAll] and the prompt helper
    [question.SelectMap].  Every such call is a node of a finite tree
    ([io]); a run of the tree against an arbitrary outside world returns
    the result, the world afterwards and the log of the calls with their
    answers, in the order they were made.

    Packages that client_factory.go imports are taken as the file uses
    them: the handle, URL, HTTP client and asker types are abstract;
    [cliErrors.OsEnvironmentError] is the struct literal the file builds;
    errors, multierror, strings, os and net/url are modelled as far as the
    file relies on them. *)

From Stdlib Require Import String Ascii List Bool Arith Lia.
From stdpp Require Import base option list strings gmap.

Local Open Scope string_scope.

(** ** Errors

    Go's [error] is an interface; the constructors below are the concrete
    error values this package creates or forwards. *)
#[warnings="-register-all"]
Inductive error : Type :=
| errors_New (text : string)
    (* errors.New(text); fmt.Errorf with string verbs only is errors.New of
       the formatted text *)
| fmt_Errorf_v (format : string) (err : error)
    (* fmt.Errorf(format, err) with a single %v verb: a new error value whose
       text is [format] with err.Error() in place of the verb *)
| OsEnvironmentError (EnvironmentVariable : string)
    (* &cliErrors.OsEnvironmentError{EnvironmentVariable: ...} *)
| multierror_Error (Errors : list error)
    (* *multierror.Error *)
| url_Error (Op URL : string) (Err : error).
    (* *url.Error *)

(** A Go pair [(T, error)] of which exactly one side is meaningful. *)
Inductive result (A : Type) : Type :=
| Ok (a : A)
| Err (e : error).
Arguments Ok {A} a.
Arguments Err {A} e.

Definition is_Err {A} (r : result A) : bool :=
  match r with Ok _ => false | Err _ => true end.

(** spaces.Space, with the two fields the factory reads. *)
Record spaces_Space : Type := mkSpace { ID : string; Name : string }.

(** item.GetName() *)
Definition GetName (item : spaces_Space) : string := Name item.

(** ** hashicorp/go-multierror, as far as [ValidateMandatoryEnvironment]
    uses it.  A [*multierror.Error] that may be nil is an [option]. *)
Definition multierror_Append (result : option (list error)) (e : error)
  : option (list error) :=
  match result with
  | None => Some [e]
  | Some errs => Some (errs ++ [e])%list
  end.

Definition ErrorOrNil (result : option (list error)) : option error :=
  match result with
  | None => None
  | Some [] => None
  | Some errs => Some (multierror_Error errs)
  end.

(** src/pkg/apiclient/client_factory.go, lines 113-124. *)
Definition ValidateMandatoryEnvironment (host apiKey : string) : option error :=
  let result : option (list error) := None in
  let result :=
    if String.eqb host "" then multierror_Append result (OsEnvironmentError "OCTOPUS_HOST")
    else result in
  let result :=
    if String.eqb apiKey "" then multierror_Append result (OsEnvironmentError "OCTOPUS_API_KEY")
    else result in
  ErrorOrNil result.

(** ** The process environment: os.Getenv and os.LookupEnv *)
Definition os_Getenv (env : gmap string string) (key : string) : string :=
  default "" (env !! key).

Definition os_LookupEnv (env : gmap string string) (key : string) : string * bool :=
  match env !! key with
  | Some v => (v, true)
  | None => ("", false)
  end.

(** ** net/url

    [url.Parse] cuts the fragment off at the first '#' and rejects what is
    left when it holds an ASCII control byte, before anything else is
    looked at.  The parser proper is a parameter of the development
    ([url_parse] below). *)
Fixpoint strings_Cut_hash (s : string) : string * string :=
  match s with
  | EmptyString => (EmptyString, EmptyString)
  | String a rest =>
      if Ascii.eqb a "#"%char then (EmptyString, rest)
      else let '(before, after) := strings_Cut_hash rest in (String a before, after)
  end.

Fixpoint stringContainsCTLByte (s : string) : bool :=
  match s with
  | EmptyString => false
  | String b rest =>
      if Nat.ltb (nat_of_ascii b) 32 || Nat.eqb (nat_of_ascii b) 127 then true
      else stringContainsCTLByte rest
  end.

Section Factory.

(** Opaque values of the libraries the factory is glued to. *)
Context {http_Client url_URL octopusApiClient_Client question_Asker : Type}.

(** survey.AskOne, the asker of interactive runs. *)
Variable survey_AskOne : question_Asker.

(** strings.EqualFold (Unicode case folding). *)
Variable strings_EqualFold : string -> string -> bool.

(** What url.Parse does with a string free of control bytes: the string
    before '#' and the fragment after it. *)
Variable url_parse : string -> string -> result url_URL.

Definition url_Parse (rawURL : string) : result url_URL :=
  let '(u, frag) := strings_Cut_hash rawURL in
  if stringContainsCTLByte u
  then Err (url_Error "parse" u (errors_New "net/url: invalid control character in URL"))
  else url_parse u frag.

(** The struct [Client], lines 42-69.  The pointers and the func value
    that the methods test against nil are options; [http_Client] and
    [url_URL] stand for the pointer values as they are, nil included. *)
Record Client : Type := mkClient {
  HttpClient : http_Client;
  SystemClient : option octopusApiClient_Client;
  SpaceScopedClient : option octopusApiClient_Client;
  ApiUrl : url_URL;
  ApiKey : string;
  SpaceNameOrID : string;
  ActiveSpace : option spaces_Space;
  Ask : option question_Asker
}.

Definition set_SystemClient (v : option octopusApiClient_Client) (c : Client) : Client :=
  mkClient (HttpClient c) v (SpaceScopedClient c) (ApiUrl c) (ApiKey c)
           (SpaceNameOrID c) (ActiveSpace c) (Ask c).
Definition set_SpaceScopedClient (v : option octopusApiClient_Client) (c : Client) : Client :=
  mkClient (HttpClient c) (SystemClient c) v (ApiUrl c) (ApiKey c)
           (SpaceNameOrID c) (ActiveSpace c) (Ask c).
Definition set_SpaceNameOrID (v : string) (c : Client) : Client :=
  mkClient (HttpClient c) (SystemClient c) (SpaceScopedClient c) (ApiUrl c) (ApiKey c)
           v (ActiveSpace c) (Ask c).
Definition set_ActiveSpace (v : option spaces_Space) (c : Client) : Client :=
  mkClient (HttpClient c) (SystemClient c) (SpaceScopedClient c) (ApiUrl c) (ApiKey c)
           (SpaceNameOrID c) v (Ask c).

(** Lines 71-88. *)
Definition NewClientFactory (httpClient : http_Client) (host apiKey spaceNameOrID : string)
           (asker : option question_Asker) : result Client :=
  match url_Parse host with
  | Err err => Err err
  | Ok hostUrl =>
      Ok {| HttpClient := httpClient;
            SystemClient := None;
            SpaceScopedClient := None;
            ApiUrl := hostUrl;
            ApiKey := apiKey;
            SpaceNameOrID := spaceNameOrID;
            ActiveSpace := None;
            Ask := asker |}
  end.

(** Lines 92-111.  [nil_http] is the nil *http.Client the function passes. *)
Definition NewClientFactoryFromEnvironment (nil_http : http_Client)
           (env : gmap string string) : result Client :=
  let host := os_Getenv env "OCTOPUS_HOST" in
  let apiKey := os_Getenv env "OCTOPUS_API_KEY" in
  let spaceNameOrID := os_Getenv env "OCTOPUS_SPACE" in
  let ask : option question_Asker := None in
  let '(_, ci) := os_LookupEnv env "CI" in
  let ask := if negb ci then Some survey_AskOne else ask in
  match ValidateMandatoryEnvironment host apiKey with
  | Some errs => Err errs
  | None => NewClientFactory nil_http host apiKey spaceNameOrID ask
  end.

(** ** Calls to the outside, and programs that make them *)
Inductive call : Type :=
| octopusApiClient_NewClient (httpClient : http_Client) (apiURL : url_URL)
                             (apiKey spaceID : string)
| Spaces_GetAll (client : octopusApiClient_Client)
| question_SelectMap (ask : question_Asker) (message : string)
                     (items : list spaces_Space) (getKey : spaces_Space -> string).

Definition answer (q : call) : Type :=
  match q with
  | octopusApiClient_NewClient _ _ _ _ => result octopusApiClient_Client
  | Spaces_GetAll _ => result (list spaces_Space)
  | question_SelectMap _ _ _ _ => result spaces_Space
  end.

Inductive io (A : Type) : Type :=
| Ret (a : A)
| Do (q : call) (k : answer q -> io A).
Arguments Ret {A} a.
Arguments Do {A} q k.

Fixpoint io_bind {A B} (p : io A) (f : A -> io B) : io B :=
  match p with
  | Ret a => f a
  | Do q k => Do q (fun x => io_bind (k x) f)
  end.

(** A method on [*Client] that returns [(A, error)]: it reads and writes
    the receiver and may call out. *)
Definition method (A : Type) : Type := Client -> io (result A * Client).

Definition ret {A} (a : A) : method A := fun c => Ret (Ok a, c).
Definition fail {A} (e : error) : method A := fun c => Ret (Err e, c).
Definition bind {A B} (m : method A) (f : A -> method B) : method B :=
  fun c => io_bind (m c) (fun rc =>
    match fst rc with
    | Ok a => f a (snd rc)
    | Err e => Ret (Err e, snd rc)
    end).
Definition get : method Client := fun c => Ret (Ok c, c).
Definition modify (f : Client -> Client) : method unit := fun c => Ret (Ok tt, f c).
Definition perform (q : call) : method (answer q) := fun c => Do q (fun x => Ret (Ok x, c)).

Notation "'let*' x ':=' m 'in' k" := (bind m (fun x => k))
  (at level 10, x name, m at level 200, k at level 200, only parsing).

(** ** The methods of [*Client] *)

(** Lines 126-128. *)
Definition GetActiveSpace (c : Client) : option spaces_Space := ActiveSpace c.

(** Lines 130-139. *)
Definition SetSpaceNameOrId (spaceNameOrId : string) (c : Client) : Client :=
  let c := set_SystemClient None c in
  let c := set_SpaceScopedClient None c in
  let c := set_ActiveSpace None c in
  set_SpaceNameOrID spaceNameOrId c.

(** Lines 231-255. *)
Definition GetSystemClient : method octopusApiClient_Client :=
  let* c := get in
  match SpaceScopedClient c with
  | Some spaceScoped => ret spaceScoped
  | None =>
      match SystemClient c with
      | Some system => ret system
      | None =>
          let* r := perform (octopusApiClient_NewClient (HttpClient c) (ApiUrl c) (ApiKey c) "") in
          match r with
          | Err err => fail err
          | Ok systemClient =>
              let* _ := modify (set_SystemClient (Some systemClient)) in
              ret systemClient
          end
      end
  end.

(** The loop of lines 199-207 over what is left of [allSpaces]: the pair
    [(foundSpace, foundSpaceByID)] when it ends or breaks. *)
Fixpoint range_allSpaces (allSpaces : list spaces_Space) (spaceNameOrID : string)
         (foundSpaceByID : option spaces_Space)
  : option spaces_Space * option spaces_Space :=
  match allSpaces with
  | [] => (None, foundSpaceByID)
  | space :: rest =>
      if strings_EqualFold (Name space) spaceNameOrID
      then (Some space, foundSpaceByID)
      else if strings_EqualFold (ID space) spaceNameOrID
           then range_allSpaces rest spaceNameOrID (Some space)
           else range_allSpaces rest spaceNameOrID foundSpaceByID
  end.

(** Lines 197-210: [foundSpace] after the loop and the fallback. *)
Definition foundSpace (allSpaces : list spaces_Space) (spaceNameOrID : string)
  : option spaces_Space :=
  let '(foundSpace, foundSpaceByID) := range_allSpaces allSpaces spaceNameOrID None in
  match foundSpace, foundSpaceByID with
  | None, Some byID => Some byID
  | _, _ => foundSpace
  end.

(** The same rule as the specification words it, to compare [foundSpace]
    with: the first space whose name matches; when no name matches, a
    space whose ID matches (the last one of the listing). *)
Definition name_first_then_ID (allSpaces : list spaces_Space) (spaceNameOrID : string)
  : option spaces_Space :=
  match List.find (fun space => strings_EqualFold (Name space) spaceNameOrID) allSpaces with
  | Some space => Some space
  | None => last (List.filter (fun space => strings_EqualFold (ID space) spaceNameOrID) allSpaces)
  end.

(** Lines 141-229.  [switch len(allSpaces)] is the match on the shape of
    the list: no element, one element [allSpaces[0]], more. *)
Definition GetSpacedClient : method octopusApiClient_Client :=
  let* c := get in
  match SpaceScopedClient c with
  | Some spaceScoped => ret spaceScoped
  | None =>
      let* systemClient := GetSystemClient in
      let* c := get in
      let* foundSpaceID :=
        (if String.eqb (SpaceNameOrID c) ""
         then
           match Ask c with
           | None =>
               fail (errors_New "space must be specified when not running interactively; please set the OCTOPUS_SPACE environment variable or specify --space on the command line")
           | Some ask =>
               let* r := perform (Spaces_GetAll systemClient) in
               match r with
               | Err err => fail err
               | Ok allSpaces =>
                   match allSpaces with
                   | [] => fail (errors_New "no spaces found")
                   | [selectedSpace] =>
                       let* _ := modify (set_ActiveSpace (Some selectedSpace)) in
                       let* _ := modify (set_SpaceNameOrID (ID selectedSpace)) in
                       ret (ID selectedSpace)
                   | _ =>
                       let* r := perform (question_SelectMap ask
                              "You have not specified a Space. Please select one:"
                              allSpaces GetName) in
                       match r with
                       | Err err => fail err
                       | Ok selectedSpace =>
                           let* _ := modify (set_ActiveSpace (Some selectedSpace)) in
                           let* _ := modify (set_SpaceNameOrID (ID selectedSpace)) in
                           ret (ID selectedSpace)
                       end
                   end
               end
           end
         else ret "") in
      let* foundSpaceID :=
        (if String.eqb foundSpaceID ""
         then
           let* r := perform (Spaces_GetAll systemClient) in
           match r with
           | Err err => fail (fmt_Errorf_v "cannot load spaces. Error: %v" err)
           | Ok allSpaces =>
               let* c := get in
               match foundSpace allSpaces (SpaceNameOrID c) with
               | None =>
                   fail (errors_New ("cannot find space '" +:+ SpaceNameOrID c +:+ "'"))
               | Some foundSpace =>
                   let* _ := modify (set_ActiveSpace (Some foundSpace)) in
                   let* _ := modify (set_SpaceNameOrID (ID foundSpace)) in
                   ret (ID foundSpace)
               end
           end
         else ret foundSpaceID) in
      let* c := get in
      let* r := perform (octopusApiClient_NewClient (HttpClient c) (ApiUrl c) (ApiKey c)
                                               foundSpaceID) in
      match r with
      | Err err => fail err
      | Ok scopedClient =>
          let* _ := modify (set_SpaceScopedClient (Some scopedClient)) in
          let* _ := modify (set_SystemClient None) in
          ret scopedClient
      end
  end.

(** ** Running a program against the outside world

    [respond q w] is what the world in state [w] answers to the call [q],
    and the world after the call.  A run logs every call with its
    answer, in the order the calls were made. *)
Inductive event : Type :=
| NewClient_returned (httpClient : http_Client) (apiURL : url_URL)
                     (apiKey spaceID : string) (r : result octopusApiClient_Client)
| GetAll_returned (client : octopusApiClient_Client) (r : result (list spaces_Space))
| SelectMap_returned (ask : question_Asker) (message : string)
                     (items : list spaces_Space) (r : result spaces_Space).

Definition returned (q : call) : answer q -> event :=
  match q with
  | octopusApiClient_NewClient h u k s => NewClient_returned h u k s
  | Spaces_GetAll cl => GetAll_returned cl
  | question_SelectMap ask msg items _ => SelectMap_returned ask msg items
  end.

(** The error a logged call came back with, if it did. *)
Definition failure (ev : event) : option error :=
  match ev with
  | NewClient_returned _ _ _ _ (Err e) => Some e
  | GetAll_returned _ (Err e) => Some e
  | SelectMap_returned _ _ _ (Err e) => Some e
  | _ => None
  end.

Definition is_GetAll (ev : event) : bool :=
  match ev with GetAll_returned _ _ => true | _ => false end.
Definition is_SelectMap (ev : event) : bool :=
  match ev with SelectMap_returned _ _ _ _ => true | _ => false end.
Definition is_NewClient (ev : event) : bool :=
  match ev with NewClient_returned _ _ _ _ _ => true | _ => false end.

(** How many times a run listed the spaces. *)
Definition listings (events : list event) : nat :=
  length (List.filter is_GetAll events).

Section Run.
Context {World : Type}.
Variable respond : forall q : call, World -> answer q * World.

Fixpoint run {A} (p : io A) (w : World) : A * World * list event :=
  match p with
  | Ret a => (a, w, [])
  | Do q k =>
      let '(x, w1) := respond q w in
      let '(a, w2, events) := run (k x) w1 in
      (a, w2, returned q x :: events)
  end.

(** The four operations of the interface [ClientFactory]. *)
Inductive operation : Type :=
| CallGetSpacedClient
| CallGetSystemClient
| CallGetActiveSpace
| CallSetSpaceNameOrId (spaceNameOrId : string).

(** The factory and the world after one operation; what the operation
    returns is dropped. *)
Definition after (o : operation) (c : Client) (w : World) : Client * World :=
  match o with
  | CallGetSpacedClient =>
      let '(rc, w1, _) := run (GetSpacedClient c) w in (snd rc, w1)
  | CallGetSystemClient =>
      let '(rc, w1, _) := run (GetSystemClient c) w in (snd rc, w1)
  | CallGetActiveSpace => (c, w)
  | CallSetSpaceNameOrId spaceNameOrId => (SetSpaceNameOrId spaceNameOrId c, w)
  end.

Fixpoint after_all (os : list operation) (c : Client) (w : World) : Client * World :=
  match os with
  | [] => (c, w)
  | o :: rest => let '(c1, w1) := after o c w in after_all rest c1 w1
  end.
End Run.

End Factory.

Arguments Ret {_ _ _ _ _} a.
Arguments Do {_ _ _ _ _} q k.

(** ** A small concrete outside world, to run the factory on

    Handles are the space IDs they are bound to, URLs are the strings they
    were parsed from, and the world counts the calls it has answered. *)
Module Scripted.

Record script : Type := mkScript {
  newClient : string -> result string;
  listing : result (list spaces_Space);
  selected : result spaces_Space
}.

Definition respond (sc : script) (q : @call unit string string unit)
  : nat -> answer q * nat :=
  match q with
  | octopusApiClient_NewClient _ _ _ spaceID => fun n => (newClient sc spaceID, S n)
  | Spaces_GetAll _ => fun n => (listing sc, S n)
  | question_SelectMap _ _ _ _ => fun n => (selected sc, S n)
  end.

(** strings.EqualFold on ASCII strings: bytes are equal, or are the two
    cases of one letter. *)
Definition fold_byte (a : ascii) : ascii :=
  let n := nat_of_ascii a in
  if Nat.leb 65 n && Nat.leb n 90 then ascii_of_nat (n + 32) else a.

Fixpoint EqualFold (s t : string) : bool :=
  match s, t with
  | EmptyString, EmptyString => true
  | String a s', String b t' => Ascii.eqb (fold_byte a) (fold_byte b) && EqualFold s' t'
  | _, _ => false
  end.

Definition parse (u frag : string) : result string := Ok u.

Definition Default : spaces_Space := {| ID := "Spaces-1"; Name := "Default" |}.
Definition Second : spaces_Space := {| ID := "Default"; Name := "Second" |}.

(** A server with two spaces, one named as the other's ID. *)
Definition healthy : script :=
  {| newClient := fun spaceID => Ok spaceID;
     listing := Ok [Second; Default];
     selected := Ok Default |}.

(** A server with one space. *)
Definition single : script :=
  {| newClient := fun spaceID => Ok spaceID;
     listing := Ok [Default];
     selected := Err (errors_New "interrupt") |}.

(** A server with no space. *)
Definition deserted : script :=
  {| newClient := fun spaceID => Ok spaceID;
     listing := Ok [];
     selected := Err (errors_New "interrupt") |}.

(** A server whose listing fails. *)
Definition listing_down : script :=
  {| newClient := fun spaceID => Ok spaceID;
     listing := Err (errors_New "connection refused");
     selected := Err (errors_New "interrupt") |}.

(** A server that hands out system handles only. *)
Definition scoped_refused : script :=
  {| newClient := fun spaceID =>
       if String.eqb spaceID "" then Ok spaceID else Err (errors_New "forbidden");
     listing := Ok [Second; Default];
     selected := Ok Default |}.

(** Three environments: a host that ends in a line feed; neither host nor
    key; host and key and nothing else. *)
Definition env_line_feed : gmap string string :=
  <["OCTOPUS_HOST" := "http://localhost" +:+ String "010"%char ""]>
    (<["OCTOPUS_API_KEY" := "API-KEY"]> ∅).
Definition env_ci_only : gmap string string := <["CI" := "true"]> ∅.
Definition env_complete : gmap string string :=
  <["OCTOPUS_HOST" := "http://localhost"]> (<["OCTOPUS_API_KEY" := "API-KEY"]> ∅).

Definition factory (spaceNameOrID : string) (asker : option unit)
  : @Client unit string string unit :=
  {| HttpClient := tt; SystemClient := None; SpaceScopedClient := None;
     ApiUrl := "http://localhost"; ApiKey := "API-KEY";
     SpaceNameOrID := spaceNameOrID; ActiveSpace := None; Ask := asker |}.

End Scripted.

(** * The command "account ssh create" (package create)

    [CreateRun], [promptMissing] and the [RunE] closure of [NewCmdCreate],
    over the same kind of tree of outside calls.  The options are the
    state; the asker, the file system, the spinner, the SDK, the writer and
    the command factory are the outside. *)

(** The SDK's package accounts, as far as the command touches it. *)
Module accounts.

Inductive SensitiveValue : Type :=
| core_NewSensitiveValue (newValue : string).

Record SSHKeyAccount : Type := mkSSHKeyAccount {
  Name : string;
  Username : string;
  PrivateKeyFile : SensitiveValue;
  Description : string;
  EnvironmentIDs : option (list string);
  PrivateKeyPassphrase : option SensitiveValue
}.

Definition set_Description (v : string) (a : SSHKeyAccount) : SSHKeyAccount :=
  mkSSHKeyAccount (Name a) (Username a) (PrivateKeyFile a) v (EnvironmentIDs a)
                  (PrivateKeyPassphrase a).
Definition set_EnvironmentIDs (v : option (list string)) (a : SSHKeyAccount) : SSHKeyAccount :=
  mkSSHKeyAccount (Name a) (Username a) (PrivateKeyFile a) (Description a) v
                  (PrivateKeyPassphrase a).
Definition set_PrivateKeyPassphrase (v : option SensitiveValue) (a : SSHKeyAccount)
  : SSHKeyAccount :=
  mkSSHKeyAccount (Name a) (Username a) (PrivateKeyFile a) (Description a)
                  (EnvironmentIDs a) v.

(** The account the server returns, as [GetName] and [GetID] show it. *)
Record IAccount : Type := mkIAccount { GetID : string; GetName : string }.

End accounts.

Module create.

(** The prompts [promptMissing] builds and the validators it attaches. *)
Inductive prompt : Type :=
| survey_Input (Message Help : string)
| surveyext_OctoEditor (Message Help FileName : string) (Optional : bool).

Inductive validator : Type :=
| survey_MaxLength (length : nat)
| survey_MinLength (length : nat)
| survey_Required
| validation_IsExistingFile.

Section Command.

(** Opaque values: io.Writer, *client.Client, question.Asker and
    factory.Spinner, as they are, nil included. *)
Context {io_Writer client_Client question_Asker factory_Spinner : Type}.

(** accounts.NewSSHKeyAccount of the SDK. *)
Variable accounts_NewSSHKeyAccount :
  string -> string -> accounts.SensitiveValue -> result accounts.SSHKeyAccount.

(** b64.StdEncoding.EncodeToString, output.Dim and output.Dimf. *)
Variable b64_EncodeToString : list Byte.byte -> string.
Variable output_Dim : string -> string.
Variable output_Dimf : string -> list string -> string.

(** The struct [CreateOptions], lines 25-39.  A []string that is tested
    against nil is an option. *)
Record CreateOptions : Type := mkCreateOptions {
  Writer : io_Writer;
  Octopus : client_Client;
  Ask : question_Asker;
  Spinner : factory_Spinner;
  Name : string;
  Description : string;
  KeyFileData : list Byte.byte;
  Username : string;
  Passphrase : string;
  Environments : option (list string);
  NoPrompt : bool
}.

Definition set_Writer (v : io_Writer) (o : CreateOptions) : CreateOptions :=
  mkCreateOptions v (Octopus o) (Ask o) (Spinner o) (Name o) (Description o) (KeyFileData o)
                  (Username o) (Passphrase o) (Environments o) (NoPrompt o).
Definition set_Octopus (v : client_Client) (o : CreateOptions) : CreateOptions :=
  mkCreateOptions (Writer o) v (Ask o) (Spinner o) (Name o) (Description o) (KeyFileData o)
                  (Username o) (Passphrase o) (Environments o) (NoPrompt o).
Definition set_Name (v : string) (o : CreateOptions) : CreateOptions :=
  mkCreateOptions (Writer o) (Octopus o) (Ask o) (Spinner o) v (Description o) (KeyFileData o)
                  (Username o) (Passphrase o) (Environments o) (NoPrompt o).
Definition set_Description (v : string) (o : CreateOptions) : CreateOptions :=
  mkCreateOptions (Writer o) (Octopus o) (Ask o) (Spinner o) (Name o) v (KeyFileData o)
                  (Username o) (Passphrase o) (Environments o) (NoPrompt o).
Definition set_KeyFileData (v : list Byte.byte) (o : CreateOptions) : CreateOptions :=
  mkCreateOptions (Writer o) (Octopus o) (Ask o) (Spinner o) (Name o) (Description o) v
                  (Username o) (Passphrase o) (Environments o) (NoPrompt o).
Definition set_Username (v : string) (o : CreateOptions) : CreateOptions :=
  mkCreateOptions (Writer o) (Octopus o) (Ask o) (Spinner o) (Name o) (Description o)
                  (KeyFileData o) v (Passphrase o) (Environments o) (NoPrompt o).
Definition set_Passphrase (v : string) (o : CreateOptions) : CreateOptions :=
  mkCreateOptions (Writer o) (Octopus o) (Ask o) (Spinner o) (Name o) (Description o)
                  (KeyFileData o) (Username o) v (Environments o) (NoPrompt o).
Definition set_Environments (v : option (list string)) (o : CreateOptions) : CreateOptions :=
  mkCreateOptions (Writer o) (Octopus o) (Ask o) (Spinner o) (Name o) (Description o)
                  (KeyFileData o) (Username o) (Passphrase o) v (NoPrompt o).
Definition set_NoPrompt (v : bool) (o : CreateOptions) : CreateOptions :=
  mkCreateOptions (Writer o) (Octopus o) (Ask o) (Spinner o) (Name o) (Description o)
                  (KeyFileData o) (Username o) (Passphrase o) (Environments o) v.

(** ** Calls to the outside

    [opts_Ask] is [opts.Ask(prompt, &response, validators)]: it answers
    with the response, or with an error and the response left alone. *)
Inductive call : Type :=
| opts_Ask (ask : question_Asker) (p : prompt) (validators : list validator)
| os_ReadFile (name : string)
| selectors_EnvironmentsMultiSelect (ask : question_Asker) (octopus : client_Client)
                                    (spinner : factory_Spinner) (message : string)
| Spinner_Start (spinner : factory_Spinner)
| Spinner_Stop (spinner : factory_Spinner)
| Accounts_Add (octopus : client_Client) (account : accounts.SSHKeyAccount)
| fmt_Fprintf (w : io_Writer) (text : string)
| f_GetSpacedClient
| cmd_OutOrStdout
| call_IsExistingFile (path : string)
| f_IsPromptEnabled
| helper_ResolveEnvironmentNames (environments : list string) (octopus : client_Client)
                                 (spinner : factory_Spinner).

Definition answer (q : call) : Type :=
  match q with
  | opts_Ask _ _ _ => result string
  | os_ReadFile _ => result (list Byte.byte)
  | selectors_EnvironmentsMultiSelect _ _ _ _ => result (option (list string))
  | Spinner_Start _ => unit
  | Spinner_Stop _ => unit
  | Accounts_Add _ _ => result accounts.IAccount
  | fmt_Fprintf _ _ => option error
  | f_GetSpacedClient => result client_Client
  | cmd_OutOrStdout => io_Writer
  | call_IsExistingFile _ => option error
  | f_IsPromptEnabled => bool
  | helper_ResolveEnvironmentNames _ _ _ => (option (list string) * option error)%type
  end.

Inductive io (A : Type) : Type :=
| Ret (a : A)
| Do (q : call) (k : answer q -> io A).
Arguments Ret {A} a.
Arguments Do {A} q k.

Fixpoint io_bind {A B} (p : io A) (f : A -> io B) : io B :=
  match p with
  | Ret a => f a
  | Do q k => Do q (fun x => io_bind (k x) f)
  end.

(** A function that works on [opts *CreateOptions] and returns an error. *)
Definition method (A : Type) : Type := CreateOptions -> io (result A * CreateOptions).

Definition ret {A} (a : A) : method A := fun o => Ret (Ok a, o).
Definition fail {A} (e : error) : method A := fun o => Ret (Err e, o).
Definition bind {A B} (m : method A) (f : A -> method B) : method B :=
  fun o => io_bind (m o) (fun ro =>
    match fst ro with
    | Ok a => f a (snd ro)
    | Err e => Ret (Err e, snd ro)
    end).
Definition get : method CreateOptions := fun o => Ret (Ok o, o).
Definition modify (f : CreateOptions -> CreateOptions) : method unit :=
  fun o => Ret (Ok tt, f o).
Definition perform (q : call) : method (answer q) := fun o => Do q (fun x => Ret (Ok x, o)).

Notation "'let*' x ':=' m 'in' k" := (bind m (fun x => k))
  (at level 10, x name, m at level 200, k at level 200, only parsing).

Definition LF : string := String "010"%char "".

(** src/unnamed/part_000, lines 140-215. *)
Definition promptMissing : method unit :=
  let* opts := get in
  let* _ :=
    (if String.eqb (Name opts) ""
     then
       let* r := perform (opts_Ask (Ask opts)
                    (survey_Input "Name" "A short, memorable, unique name for this account.")
                    [survey_MaxLength 200; survey_MinLength 1; survey_Required]) in
       match r with
       | Err err => fail err
       | Ok response => modify (set_Name response)
       end
     else ret tt) in
  let* opts := get in
  let* _ :=
    (if String.eqb (Description opts) ""
     then
       let* r := perform (opts_Ask (Ask opts)
                    (surveyext_OctoEditor "Description"
                       "A summary explaining the use of the account to other users."
                       "*.md" true)
                    []) in
       match r with
       | Err err => fail err
       | Ok response => modify (set_Description response)
       end
     else ret tt) in
  let* opts := get in
  let* _ :=
    (if String.eqb (Username opts) ""
     then
       let* r := perform (opts_Ask (Ask opts)
                    (survey_Input "Username"
                       "The username to use when authenticating against the remote host.")
                    [survey_Required]) in
       match r with
       | Err err => fail err
       | Ok response => modify (set_Username response)
       end
     else ret tt) in
  let* opts := get in
  let* _ :=
    (if Nat.eqb (length (KeyFileData opts)) 0
     then
       let* r := perform (opts_Ask (Ask opts)
                    (survey_Input "Private Key File Path"
                       "Path to the the private key file portion of the key pair.")
                    [survey_Required; validation_IsExistingFile]) in
       match r with
       | Err err => fail err
       | Ok keyFilePath =>
           let* r := perform (os_ReadFile keyFilePath) in
           match r with
           | Err err => fail err
           | Ok data => modify (set_KeyFileData data)
           end
       end
     else ret tt) in
  let* opts := get in
  let* _ :=
    (if String.eqb (Passphrase opts) ""
     then
       let* r := perform (opts_Ask (Ask opts)
                    (survey_Input "Passphrase"
                       "The passphrase for the private key, if required.")
                    []) in
       match r with
       | Err err => fail err
       | Ok response => modify (set_Passphrase response)
       end
     else ret tt) in
  let* opts := get in
  match Environments opts with
  | None =>
      let* r := perform (selectors_EnvironmentsMultiSelect (Ask opts) (Octopus opts)
                   (Spinner opts)
                   ("Choose the environments that are allowed to use this account." +:+ LF +:+
                    output_Dim "If nothing is selected, the account can be used for deployments to any environment.")) in
      match r with
      | Err err => fail err
      | Ok environmentIDs => modify (set_Environments environmentIDs)
      end
  | Some _ => ret tt
  end.

(** src/unnamed/part_000, lines 105-138. *)
Definition CreateRun : method unit :=
  let* opts := get in
  let* _ := (if negb (NoPrompt opts) then promptMissing else ret tt) in
  let* opts := get in
  match accounts_NewSSHKeyAccount (Name opts) (Username opts)
          (accounts.core_NewSensitiveValue (b64_EncodeToString (KeyFileData opts))) with
  | Err err => fail err
  | Ok sshAccount =>
      let sshAccount := accounts.set_Description (Description opts) sshAccount in
      let sshAccount := accounts.set_EnvironmentIDs (Environments opts) sshAccount in
      let sshAccount :=
        if negb (String.eqb (Passphrase opts) "")
        then accounts.set_PrivateKeyPassphrase
               (Some (accounts.core_NewSensitiveValue (Passphrase opts))) sshAccount
        else sshAccount in
      let* _ := perform (Spinner_Start (Spinner opts)) in
      let* r := perform (Accounts_Add (Octopus opts) sshAccount) in
      match r with
      | Err err =>
          let* _ := perform (Spinner_Stop (Spinner opts)) in
          fail err
      | Ok createdAccount =>
          let* _ := perform (Spinner_Stop (Spinner opts)) in
          let* r := perform (fmt_Fprintf (Writer opts)
                       ("Successfully created SSH Account " +:+ accounts.GetName createdAccount
                        +:+ " " +:+ output_Dimf "(%s)" [accounts.GetID createdAccount]
                        +:+ "." +:+ LF)) in
          match r with
          | Some err => fail err
          | None => ret tt
          end
      end
  end.

(** The closure [RunE] of [NewCmdCreate], lines 56-91, on the options as
    the flags left them and the two paths the flags -D and -K filled. *)
Definition RunE (descriptionFilePath keyFilePath : string) : method unit :=
  let* r := perform f_GetSpacedClient in
  match r with
  | Err err => fail err
  | Ok client =>
      let* _ := modify (set_Octopus client) in
      let* w := perform cmd_OutOrStdout in
      let* _ := modify (set_Writer w) in
      let* _ :=
        (if negb (String.eqb descriptionFilePath "")
         then
           let* r := perform (call_IsExistingFile descriptionFilePath) in
           match r with
           | Some err => fail err
           | None =>
               let* r := perform (os_ReadFile descriptionFilePath) in
               match r with
               | Err err => fail err
               | Ok data => modify (set_Description (string_of_list_byte data))
               end
           end
         else ret tt) in
      let* _ :=
        (if negb (String.eqb keyFilePath "")
         then
           let* r := perform (call_IsExistingFile keyFilePath) in
           match r with
           | Some err => fail err
           | None =>
               let* r := perform (os_ReadFile keyFilePath) in
               match r with
               | Err err => fail err
               | Ok data => modify (set_KeyFileData data)
               end
           end
         else ret tt) in
      let* enabled := perform f_IsPromptEnabled in
      let* _ := modify (set_NoPrompt (negb enabled)) in
      let* opts := get in
      let* _ :=
        match Environments opts with
        | Some environments =>
            let* r := perform (helper_ResolveEnvironmentNames environments (Octopus opts)
                                                              (Spinner opts)) in
            let* _ := modify (set_Environments (fst r)) in
            match snd r with
            | Some err => fail err
            | None => ret tt
            end
        | None => ret tt
        end in
      CreateRun
  end.

(** ** Runs and their log: every call made, with the error it came back
    with, if it did. *)
Definition failure (q : call) : answer q -> option error :=
  match q with
  | opts_Ask _ _ _ => fun r => match r with Err e => Some e | Ok _ => None end
  | os_ReadFile _ => fun r => match r with Err e => Some e | Ok _ => None end
  | selectors_EnvironmentsMultiSelect _ _ _ _ =>
      fun r => match r with Err e => Some e | Ok _ => None end
  | Spinner_Start _ => fun _ => None
  | Spinner_Stop _ => fun _ => None
  | Accounts_Add _ _ => fun r => match r with Err e => Some e | Ok _ => None end
  | fmt_Fprintf _ _ => fun r => r
  | f_GetSpacedClient => fun r => match r with Err e => Some e | Ok _ => None end
  | cmd_OutOrStdout => fun _ => None
  | call_IsExistingFile _ => fun r => r
  | f_IsPromptEnabled => fun _ => None
  | helper_ResolveEnvironmentNames _ _ _ => fun r => snd r
  end.

Record event : Type := mkEvent { made : call; failed : option error }.

Section Run.
Context {World : Type}.
Variable respond : forall q : call, World -> answer q * World.

Fixpoint run {A} (p : io A) (w : World) : A * World * list event :=
  match p with
  | Ret a => (a, w, [])
  | Do q k =>
      let '(x, w1) := respond q w in
      let '(a, w2, events) := run (k x) w1 in
      (a, w2, mkEvent q (failure q x) :: events)
  end.
End Run.

(** Calls that need the user or the user's files. *)
Definition is_interaction (q : call) : bool :=
  match q with
  | opts_Ask _ _ _ | os_ReadFile _ | selectors_EnvironmentsMultiSelect _ _ _ _ => true
  | _ => false
  end.

(** Calls of the step that sends the account: the spinner and the SDK. *)
Definition is_sending (q : call) : bool :=
  match q with
  | Spinner_Start _ | Spinner_Stop _ | Accounts_Add _ _ => true
  | _ => false
  end.

(** The message of a prompt shown through [opts.Ask]. *)
Definition asks (message : string) (q : call) : bool :=
  match q with
  | opts_Ask _ (survey_Input m _) _ => String.eqb m message
  | opts_Ask _ (surveyext_OctoEditor m _ _ _) _ => String.eqb m message
  | _ => false
  end.

Definition is_ReadFile (q : call) : bool :=
  match q with os_ReadFile _ => true | _ => false end.
Definition is_MultiSelect (q : call) : bool :=
  match q with selectors_EnvironmentsMultiSelect _ _ _ _ => true | _ => false end.
Definition is_Add (q : call) : bool :=
  match q with Accounts_Add _ _ => true | _ => false end.

(** Whether a run made a call of some kind. *)
Definition called (kind : call -> bool) (events : list event) : bool :=
  existsb (fun ev => kind (made ev)) events.

End Command.

Arguments Ret {_ _ _ _ _} a.
Arguments Do {_ _ _ _ _} q k.

End create.

(** A small concrete outside for the command, to run it on.  All handles
    are [unit]; the world counts the calls it has answered. *)
Module create_scripted.

Import create.

(** Stand-ins for the SDK's constructor, which wants a name, for the
    encoder and for the two formatters: any functions will do for a run. *)
Definition NewSSHKeyAccount (name username : string) (privateKeyFile : accounts.SensitiveValue)
  : result accounts.SSHKeyAccount :=
  if String.eqb name "" then Err (errors_New "name is empty")
  else Ok {| accounts.Name := name; accounts.Username := username;
             accounts.PrivateKeyFile := privateKeyFile; accounts.Description := "";
             accounts.EnvironmentIDs := None; accounts.PrivateKeyPassphrase := None |}.
Definition encode (data : list Byte.byte) : string := string_of_list_byte data.
Definition Dim (text : string) : string := text.
Definition Dimf (format : string) (args : list string) : string :=
  "(" +:+ String.concat "," args +:+ ")".

Record script : Type := mkScript {
  typed : string -> result string;
  files : string -> result (list Byte.byte);
  chosen : result (option (list string));
  added : result accounts.IAccount;
  printed : option error;
  client : result unit;
  checked : string -> option error;
  promptEnabled : bool;
  resolved : option (list string) * option error
}.

Definition message_of (p : prompt) : string :=
  match p with
  | survey_Input m _ => m
  | surveyext_OctoEditor m _ _ _ => m
  end.

Definition respond (sc : script) (q : @call unit unit unit unit) : nat -> answer q * nat :=
  match q with
  | opts_Ask _ p _ => fun n => (typed sc (message_of p), S n)
  | os_ReadFile name => fun n => (files sc name, S n)
  | selectors_EnvironmentsMultiSelect _ _ _ _ => fun n => (chosen sc, S n)
  | Spinner_Start _ => fun n => (tt, S n)
  | Spinner_Stop _ => fun n => (tt, S n)
  | Accounts_Add _ _ => fun n => (added sc, S n)
  | fmt_Fprintf _ _ => fun n => (printed sc, S n)
  | f_GetSpacedClient => fun n => (client sc, S n)
  | cmd_OutOrStdout => fun n => (tt, S n)
  | call_IsExistingFile path => fun n => (checked sc path, S n)
  | f_IsPromptEnabled => fun n => (promptEnabled sc, S n)
  | helper_ResolveEnvironmentNames _ _ _ => fun n => (resolved sc, S n)
  end.

(** A user who answers every prompt, files that exist, a server that
    accepts the account. *)
Definition cooperative : script :=
  {| typed := fun message => Ok ("the " +:+ message);
     files := fun name => Ok (list_byte_of_string "-----BEGIN KEY-----");
     chosen := Ok (Some ["Environments-1"]);
     added := Ok {| accounts.GetID := "Accounts-1"; accounts.GetName := "deploy" |};
     printed := None;
     client := Ok tt;
     checked := fun path => None;
     promptEnabled := true;
     resolved := (Some ["Environments-1"], None) |}.

(** The same with a server that refuses the account. *)
Definition refused : script :=
  {| typed := fun message => Ok ("the " +:+ message);
     files := fun name => Ok (list_byte_of_string "-----BEGIN KEY-----");
     chosen := Ok (Some ["Environments-1"]);
     added := Err (errors_New "forbidden");
     printed := None;
     client := Ok tt;
     checked := fun path => None;
     promptEnabled := true;
     resolved := (Some ["Environments-1"], None) |}.

(** A run in automation: no space-scoped client, no file, no prompting. *)
Definition automation : script :=
  {| typed := fun message => Err (errors_New "no terminal");
     files := fun name => Err (errors_New "no such file");
     chosen := Err (errors_New "no terminal");
     added := Ok {| accounts.GetID := "Accounts-1"; accounts.GetName := "deploy" |};
     printed := None;
     client := Err (errors_New "space must be specified");
     checked := fun path => Some (errors_New "no such file");
     promptEnabled := false;
     resolved := (None, Some (errors_New "no such environment")) |}.

(** Automation with a client. *)
Definition unattended : script :=
  {| typed := fun message => Err (errors_New "no terminal");
     files := fun name => Err (errors_New "no such file");
     chosen := Err (errors_New "no terminal");
     added := Ok {| accounts.GetID := "Accounts-1"; accounts.GetName := "deploy" |};
     printed := None;
     client := Ok tt;
     checked := fun path => Some (errors_New "no such file");
     promptEnabled := false;
     resolved := (None, Some (errors_New "no such environment")) |}.

(** Options with nothing given, and options with everything given. *)
Definition bare (noPrompt : bool) : @CreateOptions unit unit unit unit :=
  {| Writer := tt; Octopus := tt; Ask := tt; Spinner := tt;
     Name := ""; Description := ""; KeyFileData := []; Username := ""; Passphrase := "";
     Environments := None; NoPrompt := noPrompt |}.
Definition complete (noPrompt : bool) : @CreateOptions unit unit unit unit :=
  {| Writer := tt; Octopus := tt; Ask := tt; Spinner := tt;
     Name := "deploy"; Description := "deployment key";
     KeyFileData := list_byte_of_string "-----BEGIN KEY-----";
     Username := "octopus"; Passphrase := "secret";
     Environments := Some ["Environments-1"]; NoPrompt := noPrompt |}.

End create_scripted.

(** A server that cannot be reached at all, for the runs that need one. *)
Definition offline : Scripted.script :=
  {| Scripted.newClient := fun spaceID => Err (errors_New "connection refused");
     Scripted.listing := Err (errors_New "connection refused");
     Scripted.selected := Err (errors_New "interrupt") |}.

(** ** Properties *)
Section Properties.

Context {http_Client url_URL octopusApiClient_Client question_Asker : Type}.
Variable survey_AskOne : question_Asker.
Variable strings_EqualFold : string -> string -> bool.
Variable url_parse : string -> string -> result url_URL.

Abbreviation Client := (@Client http_Client url_URL octopusApiClient_Client question_Asker).
Abbreviation call := (@call http_Client url_URL octopusApiClient_Client question_Asker).
Abbreviation event := (@event http_Client url_URL octopusApiClient_Client question_Asker).
Abbreviation GetSpacedClient := (GetSpacedClient strings_EqualFold).
Abbreviation foundSpace := (foundSpace strings_EqualFold).
Abbreviation range_allSpaces := (range_allSpaces strings_EqualFold).
Abbreviation name_first_then_ID := (name_first_then_ID strings_EqualFold).
Abbreviation after := (after strings_EqualFold).
Abbreviation url_Parse := (url_Parse url_parse).
Abbreviation NewClientFactory :=
  (@NewClientFactory http_Client url_URL octopusApiClient_Client question_Asker url_parse).
Abbreviation NewClientFactoryFromEnvironment :=
  (@NewClientFactoryFromEnvironment http_Client url_URL octopusApiClient_Client
                                    question_Asker survey_AskOne url_parse).
Abbreviation after_all := (after_all strings_EqualFold).

(** *** The lookup by name, then by ID *)

Lemma range_allSpaces_name allSpaces spaceNameOrID byID space :
  List.find (fun space => strings_EqualFold (Name space) spaceNameOrID) allSpaces = Some space ->
  fst (range_allSpaces allSpaces spaceNameOrID byID) = Some space.
Proof.
  revert byID. induction allSpaces as [|s rest IH]; intros byID; simpl; [discriminate|].
  destruct (strings_EqualFold (Name s) spaceNameOrID); [intros [= ->]; reflexivity|].
  intros Hfind. destruct (strings_EqualFold (ID s) spaceNameOrID); apply IH, Hfind.
Qed.

Lemma range_allSpaces_no_name allSpaces spaceNameOrID byID :
  List.find (fun space => strings_EqualFold (Name space) spaceNameOrID) allSpaces = None ->
  range_allSpaces allSpaces spaceNameOrID byID =
  (None,
   match last (List.filter (fun space => strings_EqualFold (ID space) spaceNameOrID) allSpaces) with
   | Some space => Some space
   | None => byID
   end).
Proof.
  revert byID. induction allSpaces as [|s rest IH]; intros byID; simpl; [reflexivity|].
  destruct (strings_EqualFold (Name s) spaceNameOrID); [discriminate|].
  intros Hfind. destruct (strings_EqualFold (ID s) spaceNameOrID).
  - rewrite (IH _ Hfind), last_cons.
    destruct (last (List.filter _ rest)); reflexivity.
  - apply IH, Hfind.
Qed.

Lemma foundSpace_name_first_then_ID allSpaces spaceNameOrID :
  foundSpace allSpaces spaceNameOrID = name_first_then_ID allSpaces spaceNameOrID.
Proof.
  unfold foundSpace, name_first_then_ID.
  destruct (List.find _ allSpaces) as [space|] eqn:Hfind.
  - pose proof (range_allSpaces_name allSpaces spaceNameOrID None space Hfind) as Hfst.
    destruct (range_allSpaces allSpaces spaceNameOrID None) as [byName byID].
    simpl in Hfst. subst byName. reflexivity.
  - rewrite (range_allSpaces_no_name _ _ _ Hfind).
    destruct (last _); reflexivity.
Qed.

Lemma foundSpace_no_match allSpaces spaceNameOrID :
  (forall space, space ∈ allSpaces ->
     strings_EqualFold (Name space) spaceNameOrID = false /\
     strings_EqualFold (ID space) spaceNameOrID = false) ->
  foundSpace allSpaces spaceNameOrID = None.
Proof.
  intros Hno. rewrite foundSpace_name_first_then_ID. unfold name_first_then_ID.
  destruct (List.find _ allSpaces) as [space|] eqn:Hfind.
  - apply find_some in Hfind as [Hin Hname].
    apply list_elem_of_In, Hno in Hin. destruct Hin as [Hn _]. congruence.
  - destruct (last _) as [space|] eqn:Hlast; [|reflexivity].
    apply last_Some_elem_of, list_elem_of_In, filter_In in Hlast as [Hin Hid].
    apply list_elem_of_In, Hno in Hin. destruct Hin as [_ Hi]. congruence.
Qed.

(** *** Runs *)
Section Runs.
Context {World : Type}.
Variable respond : forall q : call, World -> answer q * World.

Lemma run_io_bind {A B} (p : io A) (f : A -> io B) w :
  run respond (io_bind p f) w =
  let '(a, w1, events1) := run respond p w in
  let '(b, w2, events2) := run respond (f a) w1 in
  (b, w2, (events1 ++ events2)%list).
Proof.
  revert w. induction p as [a|q k IH]; intros w; simpl.
  - destruct (run respond (f a) w) as [[b w2] events2]. reflexivity.
  - destruct (respond q w) as [x w1]. rewrite IH.
    destruct (run respond (k x) w1) as [[a w2] events1].
    destruct (run respond (f a) w2) as [[b w3] events2]. reflexivity.
Qed.

Lemma run_bind {A B} (m : method A) (f : A -> method B) c w :
  run respond (bind m f c) w =
  let '(rc, w1, events1) := run respond (m c) w in
  match fst rc with
  | Ok a =>
      let '(rc2, w2, events2) := run respond (f a (snd rc)) w1 in
      (rc2, w2, (events1 ++ events2)%list)
  | Err e => ((Err e, snd rc), w1, events1)
  end.
Proof.
  unfold bind. rewrite run_io_bind.
  destruct (run respond (m c) w) as [[[r c1] w1] events1]. simpl.
  destruct r as [a|e]; simpl; [reflexivity|].
  rewrite app_nil_r. reflexivity.
Qed.

(** [GetSystemClient] on a factory without a space-scoped handle: the
    handle it returns is the one it leaves in [SystemClient]. *)
Lemma GetSystemClient_stashes c w systemClient c1 w1 events1 :
  SpaceScopedClient c = None ->
  run respond (GetSystemClient c) w = (Ok systemClient, c1, w1, events1) ->
  c1 = set_SystemClient (Some systemClient) c.
Proof.
  destruct c as [h sys spaced u k id act ask]; simpl. intros ->.
  unfold GetSystemClient, bind, get; simpl.
  destruct sys as [sys|]; simpl.
  - intros [= <- <- _ _]. reflexivity.
  - destruct (respond _ w) as [[cl|e] w']; simpl; intros [= <- <- _ _] || intros [=].
    reflexivity.
Qed.

(** [GetSystemClient] changes nothing but [SystemClient], and only when
    neither handle is cached. *)
Lemma GetSystemClient_frame c w r c1 w1 events1 :
  run respond (GetSystemClient c) w = (r, c1, w1, events1) ->
  (c1 = c \/ (SpaceScopedClient c = None /\ SystemClient c = None /\
              exists systemClient, c1 = set_SystemClient (Some systemClient) c)).
Proof.
  destruct c as [h sys spaced u k id act ask].
  unfold GetSystemClient, bind, get; simpl.
  destruct spaced as [spaced|]; simpl; [intros [= _ <- _ _]; left; reflexivity|].
  destruct sys as [sys|]; simpl; [intros [= _ <- _ _]; left; reflexivity|].
  destruct (respond _ w) as [[cl|e] w']; simpl; intros [= _ <- _ _].
  - right. repeat split; eauto.
  - left. reflexivity.
Qed.

  (** The first two steps of [GetSpacedClient] on a factory that has no
    space-scoped handle and gets a system handle. *)
Ltac enter_resolution Hnone Hsys :=
  pose proof (GetSystemClient_stashes _ _ _ _ _ _ Hnone Hsys) as ->;
  unfold GetSpacedClient; rewrite run_bind; simpl; rewrite Hnone;
  rewrite run_bind, Hsys; simpl.

Ltac open_factory c :=
  destruct c as [h sys spaced u k id act ask]; simpl in *;
  unfold bind, get, perform, modify, ret, fail; simpl.

(** C6: once a space-scoped handle is cached, [GetSystemClient] returns
    that very handle: the factory is left as it was and no call is made,
    so no system handle is constructed. *)
Theorem GetSystemClient_returns_space_scoped (c : Client) (w : World) spaceScoped :
  SpaceScopedClient c = Some spaceScoped ->
  run respond (GetSystemClient c) w = (Ok spaceScoped, c, w, []).
Proof.
  intros Hcached. destruct c as [h sys spaced u k id act ask]; simpl in *.
  subst spaced. reflexivity.
Qed.

(** C4: with no space identifier and no asker, [GetSpacedClient] on a
    factory that has resolved no space returns an error; it lists nothing,
    prompts for nothing and leaves the active space, the identifier, the
    asker and the space-scoped handle as they were, so that the next call
    finds the same.  The error is the explicit "space must be specified"
    one whenever the system handle was there or could be made; else it is
    the error of making the system handle. *)
Theorem GetSpacedClient_no_space_no_prompt (c : Client) (w : World) :
  SpaceScopedClient c = None ->
  SpaceNameOrID c = "" ->
  Ask c = None ->
  let '(r, c', w', events) := run respond (GetSpacedClient c) w in
  is_Err r = true /\
  ActiveSpace c' = ActiveSpace c /\
  SpaceNameOrID c' = "" /\
  Ask c' = None /\
  SpaceScopedClient c' = None /\
  Forall (fun ev => is_GetAll ev = false /\ is_SelectMap ev = false) events /\
  (forall systemClient, SystemClient c' = Some systemClient ->
     r = Err (errors_New "space must be specified when not running interactively; please set the OCTOPUS_SPACE environment variable or specify --space on the command line")).
Proof.
  intros Hnone Hid Hask. unfold GetSpacedClient, GetSystemClient.
  open_factory c. subst spaced id ask. simpl.
  destruct sys as [sys|]; simpl; [repeat split; auto|].
  destruct (respond _ w) as [[cl|e] w1]; simpl;
    repeat split; auto; try discriminate; repeat constructor.
Qed.

Lemma lookup_finds_nothing (c : Client) (w : World) systemClient c1 w1 events1 allSpaces w2 :
  SpaceScopedClient c = None ->
  SpaceNameOrID c <> "" ->
  run respond (GetSystemClient c) w = (Ok systemClient, c1, w1, events1) ->
  respond (Spaces_GetAll systemClient) w1 = (Ok allSpaces, w2) ->
  foundSpace allSpaces (SpaceNameOrID c) = None ->
  run respond (GetSpacedClient c) w =
  (Err (errors_New ("cannot find space '" +:+ SpaceNameOrID c +:+ "'")), c1, w2,
   (events1 ++ [GetAll_returned systemClient (Ok allSpaces)])%list).
Proof.
  intros Hnone Hid Hsys Hall Hno. enter_resolution Hnone Hsys.
  apply String.eqb_neq in Hid. open_factory c.
  rewrite Hid; simpl. rewrite Hall; simpl. rewrite Hno. reflexivity.
Qed.

(** C8: a non-empty identifier that matches no listed space, neither by
    name nor by ID, makes [GetSpacedClient] fail with the error
    "cannot find space '<identifier>'"; nothing is called after the
    listing. *)
Theorem GetSpacedClient_cannot_find_space
        (c : Client) (w : World) systemClient c1 w1 events1 allSpaces w2 :
  SpaceScopedClient c = None ->
  SpaceNameOrID c <> "" ->
  run respond (GetSystemClient c) w = (Ok systemClient, c1, w1, events1) ->
  respond (Spaces_GetAll systemClient) w1 = (Ok allSpaces, w2) ->
  (forall space, space ∈ allSpaces ->
     strings_EqualFold (Name space) (SpaceNameOrID c) = false /\
     strings_EqualFold (ID space) (SpaceNameOrID c) = false) ->
  run respond (GetSpacedClient c) w =
  (Err (errors_New ("cannot find space '" +:+ SpaceNameOrID c +:+ "'")), c1, w2,
   (events1 ++ [GetAll_returned systemClient (Ok allSpaces)])%list).
Proof.
  intros Hnone Hid Hsys Hall Hno.
  apply (lookup_finds_nothing c w systemClient c1 w1 events1 allSpaces w2); auto.
  apply foundSpace_no_match, Hno.
Qed.

(** C3, as the code has it: when the listing comes back empty
    [GetSpacedClient] fails, with "no spaces found" if no identifier was
    given and an asker is there, and with "cannot find space
    '<identifier>'" if an identifier was given.  With neither identifier
    nor asker it has failed before any listing. *)
Theorem GetSpacedClient_zero_spaces
        (c : Client) (w : World) systemClient c1 w1 events1 w2 :
  SpaceScopedClient c = None ->
  run respond (GetSystemClient c) w = (Ok systemClient, c1, w1, events1) ->
  respond (Spaces_GetAll systemClient) w1 = (Ok [], w2) ->
  (SpaceNameOrID c = "" -> Ask c <> None ->
   run respond (GetSpacedClient c) w =
   (Err (errors_New "no spaces found"), c1, w2,
    (events1 ++ [GetAll_returned systemClient (Ok [])])%list)) /\
  (SpaceNameOrID c <> "" ->
   run respond (GetSpacedClient c) w =
   (Err (errors_New ("cannot find space '" +:+ SpaceNameOrID c +:+ "'")), c1, w2,
    (events1 ++ [GetAll_returned systemClient (Ok [])])%list)) /\
  (SpaceNameOrID c = "" -> Ask c = None ->
   run respond (GetSpacedClient c) w =
   (Err (errors_New "space must be specified when not running interactively; please set the OCTOPUS_SPACE environment variable or specify --space on the command line"),
    c1, w1, events1)).
Proof.
  intros Hnone Hsys Hall. split; [|split].
  - intros Hid Hask. enter_resolution Hnone Hsys. open_factory c.
    subst id. destruct ask as [ask|]; [|congruence]. simpl.
    rewrite Hall. reflexivity.
  - intros Hid.
    apply (lookup_finds_nothing c w systemClient c1 w1 events1 [] w2); auto.
  - intros Hid Hask. enter_resolution Hnone Hsys. open_factory c.
    subst id ask. simpl. rewrite app_nil_r. reflexivity.
Qed.

Lemma lookup_finds (c : Client) (w : World) systemClient c1 w1 events1 allSpaces w2
      space answer w3 :
  SpaceScopedClient c = None ->
  SpaceNameOrID c <> "" ->
  run respond (GetSystemClient c) w = (Ok systemClient, c1, w1, events1) ->
  respond (Spaces_GetAll systemClient) w1 = (Ok allSpaces, w2) ->
  foundSpace allSpaces (SpaceNameOrID c) = Some space ->
  respond (octopusApiClient_NewClient (HttpClient c) (ApiUrl c) (ApiKey c) (ID space)) w2
  = (answer, w3) ->
  run respond (GetSpacedClient c) w =
  (answer,
   match answer with
   | Ok scopedClient =>
       set_SystemClient None
         (set_SpaceScopedClient (Some scopedClient)
            (set_SpaceNameOrID (ID space) (set_ActiveSpace (Some space) c1)))
   | Err _ => set_SpaceNameOrID (ID space) (set_ActiveSpace (Some space) c1)
   end,
   w3,
   (events1 ++ [GetAll_returned systemClient (Ok allSpaces);
                NewClient_returned (HttpClient c) (ApiUrl c) (ApiKey c) (ID space) answer])%list).
Proof.
  intros Hnone Hid Hsys Hall Hfound Hnew. enter_resolution Hnone Hsys.
  apply String.eqb_neq in Hid. open_factory c.
  rewrite Hid; simpl. rewrite Hall; simpl. rewrite Hfound; simpl.
  rewrite Hnew; simpl. destruct answer; reflexivity.
Qed.

Lemma name_first_then_ID_prefers_name allSpaces spaceNameOrID byName :
  byName ∈ allSpaces ->
  strings_EqualFold (Name byName) spaceNameOrID = true ->
  exists space,
    name_first_then_ID allSpaces spaceNameOrID = Some space /\
    space ∈ allSpaces /\
    strings_EqualFold (Name space) spaceNameOrID = true.
Proof.
  intros Hin Hname. unfold name_first_then_ID.
  destruct (List.find _ allSpaces) as [space|] eqn:Hfind.
  - apply find_some in Hfind as [Hin' Hname']. exists space.
    rewrite list_elem_of_In. auto.
  - apply list_elem_of_In in Hin.
    pose proof (find_none _ _ Hfind _ Hin) as Hnot. simpl in Hnot. congruence.
Qed.

(** C1: a non-empty identifier is looked up in the listing by name
    first and by ID only when no name matches: the space that
    [name_first_then_ID] gives becomes the active space, its ID replaces
    the identifier, and the space-scoped handle is asked for that ID.  In
    particular, when one listed space matches by name and some listed
    space matches by ID, the active space is one that matches by name,
    and it is that very space when no other name matches. *)
Theorem GetSpacedClient_name_first_then_ID
        (c : Client) (w : World) systemClient c1 w1 events1 allSpaces w2 :
  SpaceScopedClient c = None ->
  SpaceNameOrID c <> "" ->
  run respond (GetSystemClient c) w = (Ok systemClient, c1, w1, events1) ->
  respond (Spaces_GetAll systemClient) w1 = (Ok allSpaces, w2) ->
  let '(r, c', w', events) := run respond (GetSpacedClient c) w in
  (forall space,
     name_first_then_ID allSpaces (SpaceNameOrID c) = Some space ->
     ActiveSpace c' = Some space /\
     SpaceNameOrID c' = ID space /\
     events =
     (events1 ++ [GetAll_returned systemClient (Ok allSpaces);
                  NewClient_returned (HttpClient c) (ApiUrl c) (ApiKey c)
                                     (ID space) r])%list) /\
  (forall byName byID,
     byName ∈ allSpaces -> byID ∈ allSpaces ->
     strings_EqualFold (Name byName) (SpaceNameOrID c) = true ->
     strings_EqualFold (ID byID) (SpaceNameOrID c) = true ->
     exists space,
       ActiveSpace c' = Some space /\
       strings_EqualFold (Name space) (SpaceNameOrID c) = true /\
       ((forall other, other ∈ allSpaces ->
           strings_EqualFold (Name other) (SpaceNameOrID c) = true -> other = byName) ->
        space = byName)).
Proof.
  intros Hnone Hid Hsys Hall.
  assert (Hrun : forall space,
             name_first_then_ID allSpaces (SpaceNameOrID c) = Some space ->
             exists answer w3 c',
               run respond (GetSpacedClient c) w =
               (answer, c', w3,
                (events1 ++ [GetAll_returned systemClient (Ok allSpaces);
                             NewClient_returned (HttpClient c) (ApiUrl c) (ApiKey c)
                                                (ID space) answer])%list) /\
               ActiveSpace c' = Some space /\ SpaceNameOrID c' = ID space).
  { intros space Hspec. rewrite <- foundSpace_name_first_then_ID in Hspec.
    destruct (respond (octopusApiClient_NewClient (HttpClient c) (ApiUrl c) (ApiKey c)
                                                  (ID space)) w2)
      as [answer w3] eqn:Hnew.
    eexists answer, w3, _. split.
    - apply (lookup_finds c w systemClient c1 w1 events1 allSpaces w2 space answer w3);
        assumption.
    - destruct answer; simpl; auto. }
  destruct (run respond (GetSpacedClient c) w) as [[[r c'] w'] events]. split.
  - intros space Hspec. destruct (Hrun space Hspec) as (answer & w3 & c2 & Heq & Hact & Hnew).
    injection Heq as -> -> -> ->. auto.
  - intros byName byID Hin _ Hname _.
    destruct (name_first_then_ID_prefers_name _ _ _ Hin Hname)
      as (space & Hspec & Hin' & Hname').
    destruct (Hrun space Hspec) as (answer & w3 & c2 & Heq & Hact & Hnew).
    injection Heq as -> -> -> ->. exists space. auto.
Qed.

Lemma GetSystemClient_events (c : Client) (w : World) r c1 w1 events1 :
  run respond (GetSystemClient c) w = (r, c1, w1, events1) ->
  Forall (fun ev => is_NewClient ev = true) events1.
Proof.
  unfold GetSystemClient. open_factory c.
  destruct spaced as [spaced|]; simpl; [intros [= _ _ _ <-]; constructor|].
  destruct sys as [sys|]; simpl; [intros [= _ _ _ <-]; constructor|].
  destruct (respond _ w) as [[cl|e] w']; simpl; intros [= _ _ _ <-];
    repeat constructor.
Qed.

(** C7: with no identifier and an asker, a listing of exactly one space
    makes that space the active space and no prompt is shown (when its ID
    is not empty, the ID replaces the identifier and the space-scoped
    handle is asked for it next); a listing of more than one space is
    followed at once by the single-select prompt over the listed
    spaces. *)
Theorem GetSpacedClient_one_space_or_prompt
        (c : Client) (w : World) systemClient c1 w1 events1 asker allSpaces :
  SpaceScopedClient c = None ->
  SpaceNameOrID c = "" ->
  Ask c = Some asker ->
  run respond (GetSystemClient c) w = (Ok systemClient, c1, w1, events1) ->
  (forall w', fst (respond (Spaces_GetAll systemClient) w') = Ok allSpaces) ->
  let '(r, c', w', events) := run respond (GetSpacedClient c) w in
  (forall space, allSpaces = [space] ->
     ActiveSpace c' = Some space /\
     Forall (fun ev => is_SelectMap ev = false) events /\
     (ID space <> "" ->
      SpaceNameOrID c' = ID space /\
      events =
      (events1 ++ [GetAll_returned systemClient (Ok allSpaces);
                   NewClient_returned (HttpClient c) (ApiUrl c) (ApiKey c)
                                      (ID space) r])%list)) /\
  (1 < length allSpaces ->
   exists answer rest,
     events =
     (events1 ++ GetAll_returned systemClient (Ok allSpaces)
              :: SelectMap_returned asker "You have not specified a Space. Please select one:"
                                    allSpaces answer
              :: rest)%list).
Proof.
  intros Hnone Hid Hask Hsys Hlist.
  assert (Hev1 : Forall (fun ev : event => is_SelectMap ev = false) events1).
  { eapply Forall_impl; [apply (GetSystemClient_events _ _ _ _ _ _ Hsys)|].
    intros [] ?; simpl in *; congruence. }
  enter_resolution Hnone Hsys. open_factory c. subst id ask. simpl.
  destruct (respond (Spaces_GetAll systemClient) w1) as [listed w2] eqn:Hall.
  pose proof (Hlist w1) as H1. rewrite Hall in H1. simpl in H1. subst listed. simpl.
  destruct allSpaces as [|space [|space' rest]]; simpl.
  - split; [intros ? [=] | intros Hlt; exfalso; lia].
  - destruct (ID space =? "") eqn:Hempty; simpl.
    + destruct (respond (Spaces_GetAll systemClient) w2) as [listed w3] eqn:Hall2.
      pose proof (Hlist w2) as H2. rewrite Hall2 in H2. simpl in H2. subst listed. simpl.
      unfold foundSpace; simpl.
      apply String.eqb_eq in Hempty.
      destruct (strings_EqualFold (Name space) (ID space)),
               (strings_EqualFold (ID space) (ID space)); simpl;
        try (destruct (respond _ w3) as [[scoped|e] w4]; simpl);
        (split; [|intros Hlt; exfalso; lia]); intros ? [= <-];
        (split; [reflexivity|split; [|congruence]]);
        apply Forall_app; split; auto; repeat constructor.
    + apply String.eqb_neq in Hempty.
      destruct (respond _ w2) as [[scoped|e] w3]; simpl;
        (split; [|intros Hlt; exfalso; lia]); intros ? [= <-];
        (split; [reflexivity|split; [|auto]]);
        apply Forall_app; split; auto; repeat constructor.
  - destruct (respond (question_SelectMap _ _ _ _) w2) as [[selectedSpace|e] w3]; simpl.
    + destruct (ID selectedSpace =? ""); simpl.
      * destruct (respond (Spaces_GetAll systemClient) w3) as [[listed|e] w4]; simpl.
        -- destruct (foundSpace listed (ID selectedSpace)); simpl;
             try (destruct (respond _ w4) as [[scoped|e] w5]; simpl);
             (split; [intros ? [=]|]); eauto.
        -- split; [intros ? [=]|]; eauto.
      * destruct (respond _ w3) as [[scoped|e] w4]; simpl;
          (split; [intros ? [=]|]); eauto.
    + split; [intros ? [=]|]; eauto.
Qed.

(** Every path through [GetSpacedClient], one goal per path. *)
Ltac explore :=
  repeat (simpl;
    match goal with
    | |- context [respond ?q ?w] => destruct (respond q w) as [[?|?] ?] eqn:?
    | |- context [String.eqb ?a ""] => destruct (String.eqb a "") eqn:?
    | |- context [match ?x with Some _ => _ | None => _ end] => destruct x eqn:?
    | |- context [match ?l with [] => _ | _ :: _ => _ end] => destruct l
    end).

Ltac eqb_facts :=
  repeat match goal with
    | H : String.eqb _ _ = true |- _ => apply String.eqb_eq in H
    | H : String.eqb _ _ = false |- _ => apply String.eqb_neq in H
    end.

(** C2, as the code has it: a call that comes back with an error ends
    the run, and [GetSpacedClient] returns that very error when the call
    made a handle, showed the prompt, or listed the spaces for the
    prompt (no identifier given, first listing); the listing of the
    lookup by name and ID instead comes back as
    fmt.Errorf("cannot load spaces. Error: %v", err). *)
Theorem GetSpacedClient_surfaces_errors (c : Client) (w : World) :
  let '(r, c', w', events) := run respond (GetSpacedClient c) w in
  forall ev e, ev ∈ events -> failure ev = Some e ->
    last events = Some ev /\
    (is_GetAll ev = false -> r = Err e) /\
    (is_GetAll ev = true -> SpaceNameOrID c = "" -> listings events = 1 -> r = Err e) /\
    (is_GetAll ev = true -> SpaceNameOrID c <> "" \/ listings events = 2 ->
     r = Err (fmt_Errorf_v "cannot load spaces. Error: %v" e)).
Proof.
  destruct c as [h sys spaced u k id act ask].
  unfold GetSpacedClient, GetSystemClient, bind, get, perform, modify, ret, fail.
  explore.
  all: intros ev err0 Hin Hfail.
  all: repeat (apply elem_of_cons in Hin as [->|Hin]);
    try (apply elem_of_nil in Hin; contradiction).
  all: simpl in Hfail; try discriminate; injection Hfail as <-.
  all: eqb_facts; unfold listings; simpl.
  all: repeat split; try reflexivity; try discriminate; try congruence.
  all: try (intros _ [?|?]; congruence).
Qed.

(** What [GetSpacedClient] leaves behind. *)
Lemma GetSpacedClient_leaves (c : Client) (w : World) :
  let '(r, c', w', events) := run respond (GetSpacedClient c) w in
  (SpaceScopedClient c <> None -> c' = c) /\
  (SpaceScopedClient c = None ->
   (forall scopedClient, r = Ok scopedClient ->
      SpaceScopedClient c' = Some scopedClient /\
      SystemClient c' = None /\
      ActiveSpace c' <> None) /\
   (is_Err r = true -> SpaceScopedClient c' = None) /\
   (ActiveSpace c = None -> ActiveSpace c' <> None -> existsb is_GetAll events = true) /\
   (ActiveSpace c = None -> ActiveSpace c' = None -> is_Err r = true)).
Proof.
  destruct c as [h sys spaced u k id act ask].
  unfold GetSpacedClient, GetSystemClient, bind, get, perform, modify, ret, fail.
  explore.
  all: split; [try congruence; reflexivity|]; intros Hnone; simpl in Hnone.
  all: try discriminate.
  all: repeat (first [split | intro]); simpl in *; subst;
    try reflexivity; try discriminate; try congruence.
Qed.

(** *** Sequences of operations *)

Lemma after_keeps_one_handle (o : operation) (c : Client) (w : World) :
  (SpaceScopedClient c <> None -> SystemClient c = None) ->
  SpaceScopedClient (fst (after respond o c w)) <> None ->
  SystemClient (fst (after respond o c w)) = None.
Proof.
  intros Hinv. destruct o as [| | |spaceNameOrId]; simpl; auto.
  - pose proof (GetSpacedClient_leaves c w) as Hpost.
    destruct (run respond (GetSpacedClient c) w) as [[[r c'] w'] events]. simpl.
    destruct Hpost as [Hcached Hfresh].
    destruct (SpaceScopedClient c) as [spaceScoped|] eqn:Hc.
    + rewrite Hcached by discriminate. rewrite Hc. exact Hinv.
    + destruct (Hfresh eq_refl) as (Hok & Herr & _). destruct r as [scopedClient|e].
      * intros _. apply (Hok scopedClient eq_refl).
      * rewrite (Herr eq_refl). congruence.
  - destruct (run respond (GetSystemClient c) w) as [[[r c'] w'] events] eqn:Hrun. simpl.
    destruct (GetSystemClient_frame _ _ _ _ _ _ Hrun)
      as [->|(Hnone & _ & systemClient & ->)]; [exact Hinv|].
    destruct c; simpl in *. congruence.
Qed.

(** C10: from a factory made by [NewClientFactory], whatever sequence
    of the four operations is run and whatever the outside world
    answers, the factory never holds both handles: when a space-scoped
    handle is cached, [SystemClient] is nil. *)
Theorem never_both_handles httpClient host apiKey spaceNameOrID asker (c0 : Client)
        (os : list operation) (w : World) :
  NewClientFactory httpClient host apiKey spaceNameOrID asker = Ok c0 ->
  SpaceScopedClient (fst (after_all respond os c0 w)) <> None ->
  SystemClient (fst (after_all respond os c0 w)) = None.
Proof.
  intros Hnew.
  assert (Hinv : SpaceScopedClient c0 <> None -> SystemClient c0 = None).
  { unfold NewClientFactory in Hnew. destruct (url_Parse host); [|discriminate].
    injection Hnew as <-. reflexivity. }
  clear Hnew. revert c0 w Hinv.
  induction os as [|o rest IH]; intros c w Hinv; simpl; [exact Hinv|].
  pose proof (after_keeps_one_handle o c w Hinv) as Hstep.
  destruct (after respond o c w) as [c1 w1]. apply IH, Hstep.
Qed.

Lemma after_keeps_unresolved (o : operation) (c : Client) (w : World) :
  o <> CallGetSpacedClient ->
  SpaceScopedClient c = None /\ ActiveSpace c = None ->
  SpaceScopedClient (fst (after respond o c w)) = None /\
  ActiveSpace (fst (after respond o c w)) = None.
Proof.
  intros Ho [Hnone Hact]. destruct o as [| | |spaceNameOrId]; simpl; auto; [congruence|].
  destruct (run respond (GetSystemClient c) w) as [[[r c'] w'] events] eqn:Hrun. simpl.
  destruct (GetSystemClient_frame _ _ _ _ _ _ Hrun)
    as [->|(_ & _ & systemClient & ->)]; [auto|].
  destruct c; simpl in *. auto.
Qed.

(** C5, as the code has it: [SetSpaceNameOrId] clears both handles and
    the active space and stores the new identifier; from then on, through
    any operations other than [GetSpacedClient], [GetActiveSpace] returns
    nil.  The [GetSpacedClient] that comes next either fails and leaves the
    active space nil, or has listed the spaces again and has set the active
    space; when it returns a handle it is the latter, and the handle is the
    one it caches. *)
Theorem SetSpaceNameOrId_resets (c : Client) (spaceNameOrId : string)
        (os : list operation) (w : World) :
  Forall (fun o => o <> CallGetSpacedClient) os ->
  let c0 := SetSpaceNameOrId spaceNameOrId c in
  let '(c1, w1) := after_all respond os c0 w in
  (SystemClient c0 = None /\ SpaceScopedClient c0 = None /\ ActiveSpace c0 = None /\
   SpaceNameOrID c0 = spaceNameOrId /\
   HttpClient c0 = HttpClient c /\ ApiUrl c0 = ApiUrl c /\ ApiKey c0 = ApiKey c /\
   Ask c0 = Ask c) /\
  GetActiveSpace c0 = None /\
  GetActiveSpace c1 = None /\
  (forall r c' w' events,
     run respond (GetSpacedClient c1) w1 = (r, c', w', events) ->
     (GetActiveSpace c' = None -> is_Err r = true) /\
     (GetActiveSpace c' <> None -> existsb is_GetAll events = true) /\
     (forall scopedClient, r = Ok scopedClient ->
        existsb is_GetAll events = true /\
        GetActiveSpace c' <> None /\
        SpaceScopedClient c' = Some scopedClient)).
Proof.
  clear url_parse survey_AskOne. intros Hos. simpl.
  assert (Hquiet : forall os c w,
             Forall (fun o => o <> CallGetSpacedClient) os ->
             SpaceScopedClient c = None /\ ActiveSpace c = None ->
             SpaceScopedClient (fst (after_all respond os c w)) = None /\
             ActiveSpace (fst (after_all respond os c w)) = None).
  { clear. induction os as [|o rest IH]; intros c w Hos Hc; simpl; [exact Hc|].
    inversion Hos as [|? ? Ho Hrest]; subst.
    pose proof (after_keeps_unresolved o c w Ho Hc) as Hstep.
    destruct (after respond o c w) as [c1 w1]. apply IH; assumption. }
  specialize (Hquiet os (SetSpaceNameOrId spaceNameOrId c) w Hos (conj eq_refl eq_refl)).
  destruct (after_all respond os (SetSpaceNameOrId spaceNameOrId c) w) as [c1 w1].
  simpl in Hquiet. destruct Hquiet as [Hnone Hact].
  split; [repeat split|]. split; [reflexivity|]. split; [exact Hact|].
  intros r c' w' events Hrun.
  pose proof (GetSpacedClient_leaves c1 w1) as Hpost. rewrite Hrun in Hpost.
  destruct Hpost as [_ Hfresh].
  destruct (Hfresh Hnone) as (Hok & _ & Hlisted & Hfailed).
  unfold GetActiveSpace. split; [auto|]. split; [auto|].
  intros scopedClient Hr. destruct (Hok scopedClient Hr) as (Hcache & _ & Hactive).
  auto.
Qed.

(** *** Further properties of the factory *)

Lemma cached_handle_is_returned (c : Client) (w : World) spaceScoped :
  SpaceScopedClient c = Some spaceScoped ->
  run respond (GetSpacedClient c) w = (Ok spaceScoped, c, w, []) /\
  run respond (GetSystemClient c) w = (Ok spaceScoped, c, w, []).
Proof.
  intros Hcached. destruct c as [h sys spaced u k id act ask]; simpl in *.
  subst spaced. split; reflexivity.
Qed.

Lemma GetSpacedClient_Ok_caches (c : Client) (w : World) scopedClient c1 w1 events1 :
  run respond (GetSpacedClient c) w = (Ok scopedClient, c1, w1, events1) ->
  SpaceScopedClient c1 = Some scopedClient.
Proof.
  intros Hrun. destruct (SpaceScopedClient c) as [cached|] eqn:Hc.
  - destruct (cached_handle_is_returned c w cached Hc) as [Hsame _].
    rewrite Hsame in Hrun. injection Hrun as <- <- _ _. exact Hc.
  - pose proof (GetSpacedClient_leaves c w) as Hpost. rewrite Hrun in Hpost.
    destruct Hpost as [_ Hfresh]. destruct (Hfresh Hc) as (Hok & _).
    apply (Hok scopedClient eq_refl).
Qed.

(** X1: a [GetSpacedClient] that returned a handle has memoized it: from
    then on, in whatever state the world is, [GetSpacedClient] and
    [GetSystemClient] return that same handle, make no call and leave the
    factory as it is. *)
Theorem GetSpacedClient_then_cached (c : Client) (w : World) scopedClient c1 w1 events1 :
  run respond (GetSpacedClient c) w = (Ok scopedClient, c1, w1, events1) ->
  forall w2,
    run respond (GetSpacedClient c1) w2 = (Ok scopedClient, c1, w2, []) /\
    run respond (GetSystemClient c1) w2 = (Ok scopedClient, c1, w2, []).
Proof.
  intros Hrun w2. apply cached_handle_is_returned.
  apply (GetSpacedClient_Ok_caches c w scopedClient c1 w1 events1 Hrun).
Qed.

(** X2: a [GetSystemClient] that returned a handle has memoized it: the
    next [GetSystemClient] returns the same handle without any call.  The
    only call the first one can have made is one [NewClient] for the empty
    space ID with the factory's HTTP client, URL and key. *)
Theorem GetSystemClient_then_cached (c : Client) (w : World) systemClient c1 w1 events1 :
  run respond (GetSystemClient c) w = (Ok systemClient, c1, w1, events1) ->
  (events1 = [] \/
   events1 = [NewClient_returned (HttpClient c) (ApiUrl c) (ApiKey c) "" (Ok systemClient)]) /\
  forall w2, run respond (GetSystemClient c1) w2 = (Ok systemClient, c1, w2, []).
Proof.
  unfold GetSystemClient. open_factory c.
  destruct spaced as [spaced|]; simpl; [intros [= <- <- _ <-]; auto|].
  destruct sys as [sys|]; simpl; [intros [= <- <- _ <-]; auto|].
  destruct (respond _ w) as [[cl|e] w']; simpl; intros [= <- <- _ <-] || intros [=].
  auto.
Qed.

(** X3: a [GetSystemClient] that fails has changed nothing in the factory,
    so the failure is not remembered; it made exactly one call, the
    [NewClient] for the empty space ID, and returns that call's error as it
    came. *)
Theorem GetSystemClient_failure_changes_nothing (c : Client) (w : World) e c1 w1 events1 :
  run respond (GetSystemClient c) w = (Err e, c1, w1, events1) ->
  c1 = c /\
  SystemClient c = None /\ SpaceScopedClient c = None /\
  events1 = [NewClient_returned (HttpClient c) (ApiUrl c) (ApiKey c) "" (Err e)] /\
  respond (octopusApiClient_NewClient (HttpClient c) (ApiUrl c) (ApiKey c) "") w = (Err e, w1).
Proof.
  unfold GetSystemClient. open_factory c.
  destruct spaced as [spaced|]; simpl; [intros [=]|].
  destruct sys as [sys|]; simpl; [intros [=]|].
  destruct (respond _ w) as [[cl|e'] w'] eqn:Hnew; simpl; intros [= <- <- <- <-] || intros [=].
  auto.
Qed.

Lemma GetSpacedClient_keeps_credentials (c : Client) (w : World) :
  let '(r, c', w', events) := run respond (GetSpacedClient c) w in
  HttpClient c' = HttpClient c /\ ApiUrl c' = ApiUrl c /\ ApiKey c' = ApiKey c /\
  Ask c' = Ask c.
Proof.
  destruct c as [h sys spaced u k id act ask].
  unfold GetSpacedClient, GetSystemClient, bind, get, perform, modify, ret, fail.
  explore. all: repeat split; reflexivity.
Qed.

Lemma after_all_keeps_credentials (os : list operation) (c : Client) (w : World) :
  HttpClient (fst (after_all respond os c w)) = HttpClient c /\
  ApiUrl (fst (after_all respond os c w)) = ApiUrl c /\
  ApiKey (fst (after_all respond os c w)) = ApiKey c /\
  Ask (fst (after_all respond os c w)) = Ask c.
Proof.
  revert c w. induction os as [|o rest IH]; intros c w; simpl; [auto|].
  assert (Hstep : HttpClient (fst (after respond o c w)) = HttpClient c /\
                  ApiUrl (fst (after respond o c w)) = ApiUrl c /\
                  ApiKey (fst (after respond o c w)) = ApiKey c /\
                  Ask (fst (after respond o c w)) = Ask c).
  { destruct o as [| | |spaceNameOrId]; simpl; auto.
    - pose proof (GetSpacedClient_keeps_credentials c w) as Hpost.
      destruct (run respond (GetSpacedClient c) w) as [[[r c'] w'] events]. exact Hpost.
    - destruct (run respond (GetSystemClient c) w) as [[[r c'] w'] events] eqn:Hrun. simpl.
      destruct (GetSystemClient_frame _ _ _ _ _ _ Hrun)
        as [->|(_ & _ & systemClient & ->)]; auto. }
  destruct (after respond o c w) as [c1 w1]. simpl in Hstep.
  destruct (IH c1 w1) as (H1 & H2 & H3 & H4).
  destruct Hstep as (G1 & G2 & G3 & G4).
  rewrite H1, H2, H3, H4. auto.
Qed.

(** X4: the HTTP client, the server URL, the API key and the asker of a
    factory never change, whatever operations are run on it and whatever
    the outside world answers. *)
Theorem credentials_never_change (os : list operation) (c : Client) (w : World) :
  HttpClient (fst (after_all respond os c w)) = HttpClient c /\
  ApiUrl (fst (after_all respond os c w)) = ApiUrl c /\
  ApiKey (fst (after_all respond os c w)) = ApiKey c /\
  Ask (fst (after_all respond os c w)) = Ask c.
Proof. apply after_all_keeps_credentials. Qed.

(** X5: every handle [GetSpacedClient] asks the SDK for is asked with the
    factory's own HTTP client, URL and key, and the prompt, when shown, is
    shown through the factory's asker. *)
Theorem GetSpacedClient_calls_carry_credentials (c : Client) (w : World) :
  Forall (fun ev =>
            match ev with
            | NewClient_returned httpClient apiURL apiKey _ _ =>
                httpClient = HttpClient c /\ apiURL = ApiUrl c /\ apiKey = ApiKey c
            | GetAll_returned _ _ => True
            | SelectMap_returned asker _ _ _ => Ask c = Some asker
            end)
         (snd (run respond (GetSpacedClient c) w)).
Proof.
  destruct c as [h sys spaced u k id act ask].
  unfold GetSpacedClient, GetSystemClient, bind, get, perform, modify, ret, fail.
  explore. all: repeat constructor.
Qed.

(** X6: one [GetSpacedClient] makes at most five calls: at most two
    requests for a handle, at most two listings and at most one prompt.
    Nothing is retried. *)
Theorem GetSpacedClient_call_budget (c : Client) (w : World) :
  let events := snd (run respond (GetSpacedClient c) w) in
  length events <= 5 /\
  length (List.filter is_NewClient events) <= 2 /\
  listings events <= 2 /\
  length (List.filter is_SelectMap events) <= 1.
Proof.
  destruct c as [h sys spaced u k id act ask].
  unfold GetSpacedClient, GetSystemClient, bind, get, perform, modify, ret, fail.
  explore. all: unfold listings; simpl; lia.
Qed.

(** X7: with no identifier, an asker and a listing of more than one
    space, the prompt decides.  When it fails, [GetSpacedClient] returns its
    error and the factory has gained the system handle and nothing else.
    When it returns a space whose ID is not empty, that space becomes the
    active space, its ID the identifier, and the space-scoped handle is
    asked for that ID at once: the listing is not searched and not repeated. *)
Theorem GetSpacedClient_prompt_decides
        (c : Client) (w : World) systemClient c1 w1 events1 asker allSpaces w2 choice w3 :
  SpaceScopedClient c = None ->
  SpaceNameOrID c = "" ->
  Ask c = Some asker ->
  run respond (GetSystemClient c) w = (Ok systemClient, c1, w1, events1) ->
  respond (Spaces_GetAll systemClient) w1 = (Ok allSpaces, w2) ->
  1 < length allSpaces ->
  respond (question_SelectMap asker "You have not specified a Space. Please select one:"
                              allSpaces GetName) w2 = (choice, w3) ->
  match choice with
  | Err e =>
      run respond (GetSpacedClient c) w =
      (Err e, c1, w3,
       (events1 ++ [GetAll_returned systemClient (Ok allSpaces);
                    SelectMap_returned asker "You have not specified a Space. Please select one:"
                                       allSpaces (Err e)])%list)
  | Ok selectedSpace =>
      ID selectedSpace <> "" ->
      forall answer w4,
        respond (octopusApiClient_NewClient (HttpClient c) (ApiUrl c) (ApiKey c)
                                            (ID selectedSpace)) w3 = (answer, w4) ->
        run respond (GetSpacedClient c) w =
        (answer,
         match answer with
         | Ok scopedClient =>
             set_SystemClient None
               (set_SpaceScopedClient (Some scopedClient)
                  (set_SpaceNameOrID (ID selectedSpace)
                     (set_ActiveSpace (Some selectedSpace) c1)))
         | Err _ =>
             set_SpaceNameOrID (ID selectedSpace) (set_ActiveSpace (Some selectedSpace) c1)
         end,
         w4,
         (events1 ++ [GetAll_returned systemClient (Ok allSpaces);
                      SelectMap_returned asker "You have not specified a Space. Please select one:"
                                         allSpaces (Ok selectedSpace);
                      NewClient_returned (HttpClient c) (ApiUrl c) (ApiKey c)
                                         (ID selectedSpace) answer])%list)
  end.
Proof.
  intros Hnone Hid Hask Hsys Hall Hmany Hchoice.
  destruct allSpaces as [|first [|second rest]]; simpl in Hmany; try (exfalso; lia).
  destruct choice as [selectedSpace|e].
  - intros Hselected answer w4 Hnew. enter_resolution Hnone Hsys. open_factory c.
    subst id ask. simpl. rewrite Hall. simpl. rewrite Hchoice. simpl.
    apply String.eqb_neq in Hselected. rewrite Hselected. simpl.
    rewrite Hnew. simpl. destruct answer; reflexivity.
  - enter_resolution Hnone Hsys. open_factory c.
    subst id ask. simpl. rewrite Hall. simpl. rewrite Hchoice. reflexivity.
Qed.

(** X8: when [GetSpacedClient] resolves a space and returns a handle, the
    factory holds an active space, the identifier is that space's ID, the
    handle is the one the SDK returned last, for that ID, and it is cached
    in place of the system handle. *)
Theorem GetSpacedClient_success_binds_active_space
        (c : Client) (w : World) scopedClient c' w' events :
  SpaceScopedClient c = None ->
  run respond (GetSpacedClient c) w = (Ok scopedClient, c', w', events) ->
  exists space,
    ActiveSpace c' = Some space /\
    SpaceNameOrID c' = ID space /\
    SpaceScopedClient c' = Some scopedClient /\
    SystemClient c' = None /\
    last events = Some (NewClient_returned (HttpClient c) (ApiUrl c) (ApiKey c)
                                           (ID space) (Ok scopedClient)).
Proof.
  destruct c as [h sys spaced u k id act ask].
  unfold GetSpacedClient, GetSystemClient, bind, get, perform, modify, ret, fail.
  explore.
  all: intros Hnone Hrun; simpl in Hnone; try discriminate;
    injection Hrun as <- <- <- <- || discriminate Hrun.
  all: eexists; repeat split; reflexivity.
Qed.

(** X9: when the lookup finds the space but the SDK refuses the
    space-scoped handle, [GetSpacedClient] returns the SDK's error; the
    found space stays the active space, the identifier has become its ID,
    the system handle stays cached and no space-scoped handle is. *)
Theorem GetSpacedClient_keeps_space_when_handle_fails
        (c : Client) (w : World) systemClient c1 w1 events1 allSpaces w2 space e w3 :
  SpaceScopedClient c = None ->
  SpaceNameOrID c <> "" ->
  run respond (GetSystemClient c) w = (Ok systemClient, c1, w1, events1) ->
  respond (Spaces_GetAll systemClient) w1 = (Ok allSpaces, w2) ->
  foundSpace allSpaces (SpaceNameOrID c) = Some space ->
  respond (octopusApiClient_NewClient (HttpClient c) (ApiUrl c) (ApiKey c) (ID space)) w2
  = (Err e, w3) ->
  let '(r, c', w', events) := run respond (GetSpacedClient c) w in
  r = Err e /\
  ActiveSpace c' = Some space /\
  SpaceNameOrID c' = ID space /\
  SystemClient c' = Some systemClient /\
  SpaceScopedClient c' = None.
Proof.
  intros Hnone Hid Hsys Hall Hfound Hnew.
  rewrite (lookup_finds c w systemClient c1 w1 events1 allSpaces w2 space (Err e) w3)
    by assumption.
  pose proof (GetSystemClient_stashes _ _ _ _ _ _ Hnone Hsys) as ->.
  destruct c; simpl in *. subst. auto.
Qed.

(** X10: the lookup of lines 197-210 is sound and complete: what it finds
    is a listed space that matches by name or by ID, and it finds nothing
    exactly when no listed space matches either way. *)
Theorem foundSpace_sound_and_complete (allSpaces : list spaces_Space) (spaceNameOrID : string) :
  (forall space,
     foundSpace allSpaces spaceNameOrID = Some space ->
     space ∈ allSpaces /\
     (strings_EqualFold (Name space) spaceNameOrID = true \/
      strings_EqualFold (ID space) spaceNameOrID = true)) /\
  (foundSpace allSpaces spaceNameOrID = None <->
   forall space, space ∈ allSpaces ->
     strings_EqualFold (Name space) spaceNameOrID = false /\
     strings_EqualFold (ID space) spaceNameOrID = false).
Proof.
  split; [|split; [|apply foundSpace_no_match]].
  - intros space. rewrite foundSpace_name_first_then_ID. unfold name_first_then_ID.
    destruct (List.find _ allSpaces) as [byName|] eqn:Hfind.
    + intros [= <-]. apply find_some in Hfind as [Hin Hname].
      rewrite list_elem_of_In. auto.
    + intros Hlast.
      apply last_Some_elem_of, list_elem_of_In, filter_In in Hlast as [Hin Hmatch].
      rewrite list_elem_of_In. auto.
  - rewrite foundSpace_name_first_then_ID. unfold name_first_then_ID.
    destruct (List.find _ allSpaces) as [byName|] eqn:Hfind; [discriminate|].
    intros Hlast space Hin. apply list_elem_of_In in Hin. split.
    + apply (find_none _ _ Hfind _ Hin).
    + destruct (strings_EqualFold (ID space) spaceNameOrID) eqn:Hmatch; [|reflexivity].
      assert (Hfiltered : In space (List.filter
                 (fun space => strings_EqualFold (ID space) spaceNameOrID) allSpaces))
        by (apply filter_In; auto).
      destruct (List.filter _ allSpaces) as [|x l]; [contradiction|].
      rewrite last_cons in Hlast. destruct (last l); discriminate.
Qed.

Lemma range_allSpaces_no_match allSpaces spaceNameOrID byID :
  (forall space, space ∈ allSpaces ->
     strings_EqualFold (Name space) spaceNameOrID = false /\
     strings_EqualFold (ID space) spaceNameOrID = false) ->
  range_allSpaces allSpaces spaceNameOrID byID = (None, byID).
Proof.
  revert byID. induction allSpaces as [|s rest IH]; intros byID Hno; simpl; [reflexivity|].
  destruct (Hno s) as [-> ->]; [apply elem_of_cons; auto|].
  apply IH. intros space Hin. apply Hno, elem_of_cons. auto.
Qed.

(** X11: which space the lookup finds when several match.  A space whose
    name matches and that has no name match before it in the listing is
    found, whatever IDs match anywhere; when no name matches at all, a space
    whose ID matches and that has no ID match after it in the listing is
    found. *)
Theorem foundSpace_first_name_last_ID
        (before after_ : list spaces_Space) (space : spaces_Space) (spaceNameOrID : string) :
  ((forall other, other ∈ before ->
      strings_EqualFold (Name other) spaceNameOrID = false) ->
   strings_EqualFold (Name space) spaceNameOrID = true ->
   foundSpace (before ++ space :: after_) spaceNameOrID = Some space) /\
  ((forall other, other ∈ (before ++ space :: after_)%list ->
      strings_EqualFold (Name other) spaceNameOrID = false) ->
   strings_EqualFold (ID space) spaceNameOrID = true ->
   (forall other, other ∈ after_ ->
      strings_EqualFold (ID other) spaceNameOrID = false) ->
   foundSpace (before ++ space :: after_) spaceNameOrID = Some space).
Proof.
  split.
  - intros Hbefore Hname. unfold foundSpace.
    assert (Hfst : forall byID,
               fst (range_allSpaces (before ++ space :: after_) spaceNameOrID byID)
               = Some space).
    { induction before as [|s rest IH]; intros byID; simpl.
      - rewrite Hname. reflexivity.
      - rewrite (Hbefore s) by (apply elem_of_cons; auto).
        destruct (strings_EqualFold (ID s) spaceNameOrID); apply IH;
          intros other Hin; apply Hbefore, elem_of_cons; auto. }
    specialize (Hfst None).
    destruct (range_allSpaces (before ++ space :: after_) spaceNameOrID None)
      as [byName byID].
    simpl in Hfst. subst byName. reflexivity.
  - intros Hnames Hid Hafter. unfold foundSpace.
    assert (Hrange : forall byID,
               range_allSpaces (before ++ space :: after_) spaceNameOrID byID
               = (None, Some space)).
    { induction before as [|s rest IH]; intros byID; simpl.
      - rewrite (Hnames space) by (apply elem_of_cons; auto). rewrite Hid.
        apply range_allSpaces_no_match. intros other Hin. split.
        + apply Hnames, elem_of_cons. auto.
        + apply Hafter, Hin.
      - rewrite (Hnames s) by (apply elem_of_cons; auto).
        destruct (strings_EqualFold (ID s) spaceNameOrID); apply IH;
          intros other Hin; apply Hnames, elem_of_cons; auto. }
    rewrite Hrange. reflexivity.
Qed.

(** X12: a reset factory is a newly constructed one.  After any operations
    on a factory made by [NewClientFactory], [SetSpaceNameOrId] leaves
    exactly the factory that [NewClientFactory] makes from the same HTTP
    client, host, key and asker with the new identifier. *)
Theorem reset_is_fresh_factory httpClient host apiKey spaceNameOrID asker (c0 : Client)
        (os : list operation) (w : World) (spaceNameOrId : string) :
  NewClientFactory httpClient host apiKey spaceNameOrID asker = Ok c0 ->
  NewClientFactory httpClient host apiKey spaceNameOrId asker =
  Ok (SetSpaceNameOrId spaceNameOrId (fst (after_all respond os c0 w))).
Proof.
  unfold NewClientFactory. destruct (url_Parse host) as [hostUrl|err]; [|discriminate].
  intros [= <-]. f_equal.
  destruct (after_all_keeps_credentials os
              {| HttpClient := httpClient; SystemClient := None; SpaceScopedClient := None;
                 ApiUrl := hostUrl; ApiKey := apiKey; SpaceNameOrID := spaceNameOrID;
                 ActiveSpace := None; Ask := asker |} w) as (H1 & H2 & H3 & H4).
  simpl in *.
  destruct (fst (after_all respond os _ w)) as [h sys spaced u k id act ask].
  simpl in *. subst. reflexivity.
Qed.

End Runs.

(** *** Construction from the environment *)

Lemma ValidateMandatoryEnvironment_errors host apiKey :
  ValidateMandatoryEnvironment host apiKey =
  match ((if String.eqb host "" then [OsEnvironmentError "OCTOPUS_HOST"] else []) ++
         (if String.eqb apiKey "" then [OsEnvironmentError "OCTOPUS_API_KEY"] else []))%list
  with
  | [] => None
  | errs => Some (multierror_Error errs)
  end.
Proof.
  unfold ValidateMandatoryEnvironment.
  destruct (String.eqb host ""), (String.eqb apiKey ""); reflexivity.
Qed.

(** C9, as the code has it: construction from the environment fails in
    the validation exactly when OCTOPUS_HOST or OCTOPUS_API_KEY is empty,
    with a multierror that holds one [OsEnvironmentError] per missing
    variable, naming it; with both set, it fails only if [url.Parse] rejects
    the host, with that error, and otherwise returns a factory without
    handles whose identifier is OCTOPUS_SPACE (empty when unset) and whose
    asker is nil exactly when CI is present. *)
Theorem NewClientFactoryFromEnvironment_outcome (nil_http : http_Client)
        (env : gmap string string) :
  (ValidateMandatoryEnvironment (os_Getenv env "OCTOPUS_HOST") (os_Getenv env "OCTOPUS_API_KEY")
     <> None <->
   os_Getenv env "OCTOPUS_HOST" = "" \/ os_Getenv env "OCTOPUS_API_KEY" = "") /\
  (os_Getenv env "OCTOPUS_HOST" = "" \/ os_Getenv env "OCTOPUS_API_KEY" = "" ->
   NewClientFactoryFromEnvironment nil_http env =
   Err (multierror_Error
          ((if String.eqb (os_Getenv env "OCTOPUS_HOST") ""
            then [OsEnvironmentError "OCTOPUS_HOST"] else []) ++
           (if String.eqb (os_Getenv env "OCTOPUS_API_KEY") ""
            then [OsEnvironmentError "OCTOPUS_API_KEY"] else []))%list)) /\
  (os_Getenv env "OCTOPUS_HOST" <> "" -> os_Getenv env "OCTOPUS_API_KEY" <> "" ->
   NewClientFactoryFromEnvironment nil_http env =
   match url_Parse (os_Getenv env "OCTOPUS_HOST") with
   | Err err => Err err
   | Ok hostUrl =>
       Ok {| HttpClient := nil_http;
             SystemClient := None;
             SpaceScopedClient := None;
             ApiUrl := hostUrl;
             ApiKey := os_Getenv env "OCTOPUS_API_KEY";
             SpaceNameOrID := os_Getenv env "OCTOPUS_SPACE";
             ActiveSpace := None;
             Ask := match env !! "CI" with
                    | Some _ => None
                    | None => Some survey_AskOne
                    end |}
   end).
Proof.
  assert (Hempty : forall s, String.eqb s "" = true <-> s = "")
    by (intros s; apply String.eqb_eq).
  split; [|split].
  - rewrite ValidateMandatoryEnvironment_errors.
    destruct (String.eqb (os_Getenv env "OCTOPUS_HOST") "") eqn:Hhost;
      destruct (String.eqb (os_Getenv env "OCTOPUS_API_KEY") "") eqn:Hkey;
      simpl; rewrite <- !Hempty, Hhost, Hkey; split; try discriminate; auto;
      try (intros [?|?]; discriminate); intros Hnone; congruence.
  - intros Hmissing. unfold NewClientFactoryFromEnvironment, os_LookupEnv.
    rewrite ValidateMandatoryEnvironment_errors.
    rewrite <- !Hempty in Hmissing.
    destruct (env !! "CI");
      destruct (String.eqb (os_Getenv env "OCTOPUS_HOST") "");
      destruct (String.eqb (os_Getenv env "OCTOPUS_API_KEY") "");
      simpl; try reflexivity; destruct Hmissing; discriminate.
  - intros Hhost Hkey. apply String.eqb_neq in Hhost, Hkey.
    unfold NewClientFactoryFromEnvironment, os_LookupEnv.
    rewrite ValidateMandatoryEnvironment_errors, Hhost, Hkey. simpl.
    unfold NewClientFactory.
    destruct (env !! "CI"); simpl;
      destruct (url_Parse (os_Getenv env "OCTOPUS_HOST")); reflexivity.
Qed.

End Properties.

(** ** The theorems at work on the scripted world *)

Import Scripted.

(** C6 on a factory that holds the handle of Spaces-1. *)
Lemma GetSystemClient_returns_space_scoped_witness :
  run (respond healthy)
      (GetSystemClient (set_SpaceScopedClient (Some "Spaces-1") (factory "Spaces-1" None))) 0
  = (Ok "Spaces-1", set_SpaceScopedClient (Some "Spaces-1") (factory "Spaces-1" None), 0, []).
Proof.
  apply (GetSystemClient_returns_space_scoped (respond healthy)). reflexivity.
Defined.

(** C4 on a fresh factory without identifier and without asker. *)
Lemma GetSpacedClient_no_space_no_prompt_witness :
  is_Err (fst (fst (fst (run (respond healthy) (GetSpacedClient EqualFold (factory "" None)) 0))))
  = true.
Proof.
  pose proof (GetSpacedClient_no_space_no_prompt EqualFold (respond healthy) (factory "" None) 0
                eq_refl eq_refl eq_refl) as H.
  destruct (run (respond healthy) (GetSpacedClient EqualFold (factory "" None)) 0)
    as [[[r c'] w'] events].
  apply H.
Defined.

(** C8 on the identifier "nope", which neither listed space carries. *)
Lemma GetSpacedClient_cannot_find_space_witness :
  fst (fst (fst (run (respond healthy) (GetSpacedClient EqualFold (factory "nope" None)) 0)))
  = Err (errors_New "cannot find space 'nope'").
Proof.
  erewrite (GetSpacedClient_cannot_find_space EqualFold (respond healthy) (factory "nope" None) 0).
  - reflexivity.
  - reflexivity.
  - discriminate.
  - reflexivity.
  - reflexivity.
  - intros space Hin.
    repeat (apply elem_of_cons in Hin as [->|Hin]); [split; reflexivity ..|].
    apply elem_of_nil in Hin. contradiction.
Defined.

(** C3 on the server without spaces, without and with an identifier. *)
Lemma GetSpacedClient_zero_spaces_witness :
  fst (fst (fst (run (respond deserted) (GetSpacedClient EqualFold (factory "" (Some tt))) 0)))
  = Err (errors_New "no spaces found") /\
  fst (fst (fst (run (respond deserted) (GetSpacedClient EqualFold (factory "Default" None)) 0)))
  = Err (errors_New "cannot find space 'Default'").
Proof.
  split.
  - destruct (GetSpacedClient_zero_spaces EqualFold (respond deserted) (factory "" (Some tt)) 0
                "" _ 1 _ 2 eq_refl eq_refl eq_refl) as [H _].
    rewrite H; [reflexivity | reflexivity | discriminate].
  - destruct (GetSpacedClient_zero_spaces EqualFold (respond deserted) (factory "Default" None) 0
                "" _ 1 _ 2 eq_refl eq_refl eq_refl) as (_ & H & _).
    rewrite H; [reflexivity | discriminate].
Defined.

(** C1 on "default": the listing has it as the ID of its first space and,
    folded, as the name of its second; the second is resolved. *)
Lemma GetSpacedClient_name_first_then_ID_witness :
  ActiveSpace (snd (fst (fst (run (respond healthy)
                                  (GetSpacedClient EqualFold (factory "default" None)) 0))))
  = Some Default.
Proof.
  pose proof (GetSpacedClient_name_first_then_ID EqualFold (respond healthy)
                (factory "default" None) 0 "" _ 1 _ [Second; Default] 2
                eq_refl ltac:(discriminate) eq_refl eq_refl) as H.
  destruct (run (respond healthy) (GetSpacedClient EqualFold (factory "default" None)) 0)
    as [[[r c'] w'] events].
  destruct H as [H _]. apply (H Default eq_refl).
Defined.

(** C7 on the server with one space and on the server with two. *)
Lemma GetSpacedClient_one_space_or_prompt_witness :
  ActiveSpace (snd (fst (fst (run (respond single)
                                  (GetSpacedClient EqualFold (factory "" (Some tt))) 0))))
  = Some Default /\
  exists answer rest,
    snd (run (respond healthy) (GetSpacedClient EqualFold (factory "" (Some tt))) 0) =
    NewClient_returned tt "http://localhost" "API-KEY" "" (Ok "")
    :: GetAll_returned "" (Ok [Second; Default])
    :: SelectMap_returned tt "You have not specified a Space. Please select one:"
                          [Second; Default] answer
    :: rest.
Proof.
  split.
  - pose proof (GetSpacedClient_one_space_or_prompt EqualFold (respond single)
                  (factory "" (Some tt)) 0 "" _ 1 _ tt [Default]
                  eq_refl eq_refl eq_refl eq_refl (fun _ => eq_refl)) as H.
    destruct (run (respond single) (GetSpacedClient EqualFold (factory "" (Some tt))) 0)
      as [[[r c'] w'] events].
    destruct H as [H _]. apply (H Default eq_refl).
  - pose proof (GetSpacedClient_one_space_or_prompt EqualFold (respond healthy)
                  (factory "" (Some tt)) 0 "" _ 1 _ tt [Second; Default]
                  eq_refl eq_refl eq_refl eq_refl (fun _ => eq_refl)) as H.
    destruct (run (respond healthy) (GetSpacedClient EqualFold (factory "" (Some tt))) 0)
      as [[[r c'] w'] events].
    destruct H as [_ H]. apply H. simpl. lia.
Defined.

(** C2 on the listing for the prompt, which fails: the error is returned
    as it came. *)
Lemma GetSpacedClient_surfaces_errors_witness :
  fst (fst (fst (run (respond listing_down)
                     (GetSpacedClient EqualFold (factory "" (Some tt))) 0)))
  = Err (errors_New "connection refused").
Proof.
  pose proof (GetSpacedClient_surfaces_errors EqualFold (respond listing_down)
                (factory "" (Some tt)) 0) as H.
  destruct (run (respond listing_down) (GetSpacedClient EqualFold (factory "" (Some tt))) 0)
    as [[[r c'] w'] events] eqn:Hrun.
  vm_compute in Hrun. injection Hrun as <- <- <- <-.
  destruct (H (GetAll_returned "" (Err (errors_New "connection refused")))
              (errors_New "connection refused")) as (_ & _ & Hsame & _).
  - apply elem_of_cons; right. apply elem_of_cons; left. reflexivity.
  - reflexivity.
  - apply Hsame; reflexivity.
Defined.

(** C10 on a system handle, a space-scoped handle and a system handle
    again, asked for in that order. *)
Lemma never_both_handles_witness :
  SystemClient
    (fst (after_all EqualFold (respond healthy)
                    [CallGetSystemClient; CallGetSpacedClient; CallGetSystemClient]
                    (factory "default" None) 0))
  = None.
Proof.
  apply (never_both_handles EqualFold parse (respond healthy)
           tt "http://localhost" "API-KEY" "default" None).
  - reflexivity.
  - vm_compute. discriminate.
Defined.

(** C5 on a factory that had resolved "default" and is reset to "Second". *)
Lemma SetSpaceNameOrId_resets_witness :
  GetActiveSpace
    (fst (after_all EqualFold (respond healthy) [CallGetSystemClient; CallGetActiveSpace]
            (SetSpaceNameOrId "Second"
               (fst (after EqualFold (respond healthy) CallGetSpacedClient
                           (factory "default" None) 0))) 1))
  = None.
Proof.
  pose proof (SetSpaceNameOrId_resets EqualFold (respond healthy)
                (fst (after EqualFold (respond healthy) CallGetSpacedClient
                            (factory "default" None) 0))
                "Second" [CallGetSystemClient; CallGetActiveSpace] 1
                ltac:(repeat constructor; discriminate)) as H.
  cbv zeta in H.
  destruct (after_all EqualFold (respond healthy) [CallGetSystemClient; CallGetActiveSpace] _ 1)
    as [c1 w1].
  apply H.
Defined.

(** C9 on an environment that only sets CI, and on one that sets the host
    and the key and nothing else. *)
Lemma NewClientFactoryFromEnvironment_outcome_witness :
  @NewClientFactoryFromEnvironment unit string string unit tt parse tt env_ci_only
  = Err (multierror_Error [OsEnvironmentError "OCTOPUS_HOST";
                           OsEnvironmentError "OCTOPUS_API_KEY"]) /\
  @NewClientFactoryFromEnvironment unit string string unit tt parse tt env_complete
  = Ok (factory "" (Some tt)).
Proof.
  split.
  - destruct (@NewClientFactoryFromEnvironment_outcome unit string string unit tt parse tt
                env_ci_only) as (_ & H & _).
    rewrite H; [reflexivity | left; reflexivity].
  - destruct (@NewClientFactoryFromEnvironment_outcome unit string string unit tt parse tt
                env_complete) as (_ & _ & H).
    rewrite H; [reflexivity | vm_compute; discriminate | vm_compute; discriminate].
Defined.

(** C2, the claim as stated fails: the lookup of "Default" on a server
    whose listing fails with "connection refused" does not return that
    error but a new one that quotes it. *)
Lemma lookup_listing_error_is_reworded :
  listing listing_down = Err (errors_New "connection refused") /\
  fst (fst (fst (run (respond listing_down)
                     (GetSpacedClient EqualFold (factory "Default" None)) 0)))
  = Err (fmt_Errorf_v "cannot load spaces. Error: %v" (errors_New "connection refused")) /\
  fst (fst (fst (run (respond listing_down)
                     (GetSpacedClient EqualFold (factory "Default" None)) 0)))
  <> Err (errors_New "connection refused").
Proof. split; [reflexivity | split; [reflexivity | vm_compute; discriminate]]. Qed.

(** C3, the claim as stated fails: on a server without spaces the lookup
    of "Default" fails with "cannot find space 'Default'", not with
    "no spaces found". *)
Lemma zero_spaces_with_identifier_is_cannot_find :
  listing deserted = Ok [] /\
  fst (fst (fst (run (respond deserted)
                     (GetSpacedClient EqualFold (factory "Default" (Some tt))) 0)))
  = Err (errors_New "cannot find space 'Default'") /\
  fst (fst (fst (run (respond deserted)
                     (GetSpacedClient EqualFold (factory "Default" (Some tt))) 0)))
  <> Err (errors_New "no spaces found").
Proof. split; [reflexivity | split; [reflexivity | vm_compute; discriminate]]. Qed.

(** C5, the claim as stated fails: after the reset to "Default", a
    [GetSpacedClient] that finds the space but is refused the space-scoped
    handle fails, and [GetActiveSpace] returns the space all the same. *)
Lemma active_space_set_by_failed_GetSpacedClient :
  fst (fst (fst (run (respond scoped_refused)
                     (GetSpacedClient EqualFold (SetSpaceNameOrId "Default" (factory "" None)))
                     0)))
  = Err (errors_New "forbidden") /\
  GetActiveSpace
    (snd (fst (fst (run (respond scoped_refused)
                        (GetSpacedClient EqualFold (SetSpaceNameOrId "Default" (factory "" None)))
                        0))))
  = Some Default.
Proof. split; reflexivity. Qed.

(** C9, the claim as stated fails: with both mandatory variables set,
    construction fails on a host that holds a line feed. *)
Lemma environment_with_line_feed_host_fails :
  os_Getenv env_line_feed "OCTOPUS_HOST" <> "" /\
  os_Getenv env_line_feed "OCTOPUS_API_KEY" <> "" /\
  @NewClientFactoryFromEnvironment unit string string unit tt parse tt env_line_feed
  = Err (url_Error "parse" ("http://localhost" +:+ String "010"%char "")
                   (errors_New "net/url: invalid control character in URL")).
Proof.
  split; [vm_compute; discriminate | split; [vm_compute; discriminate | reflexivity]].
Qed.

(** ** The further properties of the factory at work *)

(** X1 on the factory that has resolved "default". *)
Lemma GetSpacedClient_then_cached_witness :
  run (respond healthy)
      (GetSystemClient (fst (after EqualFold (respond healthy) CallGetSpacedClient
                                   (factory "default" None) 0))) 7
  = (Ok "Spaces-1",
     fst (after EqualFold (respond healthy) CallGetSpacedClient (factory "default" None) 0),
     7, []).
Proof.
  apply (GetSpacedClient_then_cached EqualFold (respond healthy) (factory "default" None) 0
           "Spaces-1"
           (fst (after EqualFold (respond healthy) CallGetSpacedClient
                       (factory "default" None) 0))
           3
           (snd (run (respond healthy) (GetSpacedClient EqualFold (factory "default" None)) 0))
           eq_refl 7).
Defined.

(** X2 on a fresh factory. *)
Lemma GetSystemClient_then_cached_witness :
  run (respond healthy) (GetSystemClient (set_SystemClient (Some "") (factory "" None))) 5
  = (Ok "", set_SystemClient (Some "") (factory "" None), 5, []).
Proof.
  apply (GetSystemClient_then_cached (respond healthy) (factory "" None) 0 ""
           (set_SystemClient (Some "") (factory "" None)) 1
           [NewClient_returned tt "http://localhost" "API-KEY" "" (Ok "")] eq_refl).
Defined.

(** X3 on a fresh factory and a server that cannot be reached. *)
Lemma GetSystemClient_failure_changes_nothing_witness :
  snd (fst (fst (run (respond offline) (GetSystemClient (factory "" None)) 0)))
  = factory "" None.
Proof.
  symmetry.
  apply (GetSystemClient_failure_changes_nothing (respond offline) (factory "" None) 0
           (errors_New "connection refused")
           (snd (fst (fst (run (respond offline) (GetSystemClient (factory "" None)) 0))))
           1
           [NewClient_returned tt "http://localhost" "API-KEY" "" (Err (errors_New "connection refused"))]
           eq_refl).
Defined.

(** X7 on the server with two spaces, the user choosing "Default". *)
Lemma GetSpacedClient_prompt_decides_witness :
  ActiveSpace (snd (fst (fst (run (respond healthy)
                                  (GetSpacedClient EqualFold (factory "" (Some tt))) 0))))
  = Some Default.
Proof.
  pose proof (GetSpacedClient_prompt_decides EqualFold (respond healthy)
                (factory "" (Some tt)) 0 "" _ 1 _ tt [Second; Default] 2 (Ok Default) 3
                eq_refl eq_refl eq_refl eq_refl eq_refl ltac:(simpl; lia) eq_refl
                ltac:(discriminate) (Ok "Spaces-1") 4 eq_refl) as H.
  rewrite H. reflexivity.
Defined.

(** X8 on the lookup of "default". *)
Lemma GetSpacedClient_success_binds_active_space_witness :
  exists space,
    ActiveSpace (fst (after EqualFold (respond healthy) CallGetSpacedClient
                            (factory "default" None) 0)) = Some space /\
    SpaceNameOrID (fst (after EqualFold (respond healthy) CallGetSpacedClient
                              (factory "default" None) 0)) = ID space.
Proof.
  destruct (GetSpacedClient_success_binds_active_space EqualFold (respond healthy)
              (factory "default" None) 0 "Spaces-1"
              (fst (after EqualFold (respond healthy) CallGetSpacedClient
                          (factory "default" None) 0))
              3
              (snd (run (respond healthy) (GetSpacedClient EqualFold (factory "default" None)) 0))
              eq_refl eq_refl) as (space & Hactive & Hid & _).
  exists space. split; assumption.
Defined.

(** X9 on the server that hands out system handles only. *)
Lemma GetSpacedClient_keeps_space_when_handle_fails_witness :
  SpaceNameOrID (snd (fst (fst (run (respond scoped_refused)
                                    (GetSpacedClient EqualFold (factory "default" None)) 0))))
  = "Spaces-1".
Proof.
  pose proof (GetSpacedClient_keeps_space_when_handle_fails EqualFold (respond scoped_refused)
                (factory "default" None) 0 "" _ 1 _ [Second; Default] 2 Default
                (errors_New "forbidden") 3
                eq_refl ltac:(discriminate) eq_refl eq_refl eq_refl eq_refl) as H.
  destruct (run (respond scoped_refused) (GetSpacedClient EqualFold (factory "default" None)) 0)
    as [[[r c'] w'] events].
  apply H.
Defined.

(** X11 on two spaces named alike and two spaces with the same ID. *)
Lemma foundSpace_first_name_last_ID_witness :
  foundSpace EqualFold [Second; Default; mkSpace "Spaces-2" "DEFAULT"] "default" = Some Default /\
  foundSpace EqualFold [mkSpace "Spaces-1" "a"; mkSpace "SPACES-1" "b"; Second] "spaces-1"
  = Some (mkSpace "SPACES-1" "b").
Proof.
  split.
  - apply (proj1 (foundSpace_first_name_last_ID EqualFold [Second] [mkSpace "Spaces-2" "DEFAULT"]
                    Default "default")).
    + intros other Hin.
      repeat (apply elem_of_cons in Hin as [->|Hin]); try reflexivity.
      apply elem_of_nil in Hin. contradiction.
    + reflexivity.
  - apply (proj2 (foundSpace_first_name_last_ID EqualFold [mkSpace "Spaces-1" "a"] [Second]
                    (mkSpace "SPACES-1" "b") "spaces-1")).
    + intros other Hin.
      repeat (apply elem_of_cons in Hin as [->|Hin]); try reflexivity.
      apply elem_of_nil in Hin. contradiction.
    + reflexivity.
    + intros other Hin.
      repeat (apply elem_of_cons in Hin as [->|Hin]); try reflexivity.
      apply elem_of_nil in Hin. contradiction.
Defined.

(** X12 on a factory that resolved "default" and is reset to "Second". *)
Lemma reset_is_fresh_factory_witness :
  @NewClientFactory unit string string unit parse tt "http://localhost" "API-KEY" "Second" None
  = Ok (SetSpaceNameOrId "Second"
          (fst (after_all EqualFold (respond healthy)
                          [CallGetSystemClient; CallGetSpacedClient]
                          (factory "default" None) 0))).
Proof.
  apply (reset_is_fresh_factory EqualFold parse (respond healthy)
           tt "http://localhost" "API-KEY" "default" None (factory "default" None)
           [CallGetSystemClient; CallGetSpacedClient] 0 "Second" eq_refl).
Defined.

(** * Properties of the command "account ssh create" *)
Section create_properties.

Import create.

Context {io_Writer client_Client question_Asker factory_Spinner : Type}.
Variable accounts_NewSSHKeyAccount :
  string -> string -> accounts.SensitiveValue -> result accounts.SSHKeyAccount.
Variable b64_EncodeToString : list Byte.byte -> string.
Variable output_Dim : string -> string.
Variable output_Dimf : string -> list string -> string.

Abbreviation CreateOptions :=
  (@CreateOptions io_Writer client_Client question_Asker factory_Spinner).
Abbreviation call := (@call io_Writer client_Client question_Asker factory_Spinner).
Abbreviation event := (@event io_Writer client_Client question_Asker factory_Spinner).
Abbreviation promptMissing := (promptMissing output_Dim).
Abbreviation CreateRun :=
  (CreateRun accounts_NewSSHKeyAccount b64_EncodeToString output_Dim output_Dimf).
Abbreviation RunE :=
  (RunE accounts_NewSSHKeyAccount b64_EncodeToString output_Dim output_Dimf).

Context {World : Type}.
Variable respond : forall q : call, World -> answer q * World.

Lemma create_run_io_bind {A B} (p : io A) (f : A -> io B) w :
  run respond (io_bind p f) w =
  let '(a, w1, events1) := run respond p w in
  let '(b, w2, events2) := run respond (f a) w1 in
  (b, w2, (events1 ++ events2)%list).
Proof.
  revert w. induction p as [a|q k IH]; intros w; simpl.
  - destruct (run respond (f a) w) as [[b w2] events2]. reflexivity.
  - destruct (respond q w) as [x w1]. rewrite IH.
    destruct (run respond (k x) w1) as [[a w2] events1].
    destruct (run respond (f a) w2) as [[b w3] events2]. reflexivity.
Qed.

Lemma create_run_bind {A B} (m : method A) (f : A -> method B) o w :
  run respond (bind m f o) w =
  let '(ro, w1, events1) := run respond (m o) w in
  match fst ro with
  | Ok a =>
      let '(ro2, w2, events2) := run respond (f a (snd ro)) w1 in
      (ro2, w2, (events1 ++ events2)%list)
  | Err e => ((Err e, snd ro), w1, events1)
  end.
Proof.
  unfold bind. rewrite create_run_io_bind.
  destruct (run respond (m o) w) as [[[r o1] w1] events1]. simpl.
  destruct r as [a|e]; simpl; [reflexivity|].
  rewrite app_nil_r. reflexivity.
Qed.

(** Every path through [promptMissing], one goal per path. *)
Ltac explore_prompts :=
  repeat (simpl;
    match goal with
    | |- context [respond ?q ?w] => destruct (respond q w) as [[?|?] ?] eqn:?
    | |- context [String.eqb ?a ""] => destruct (String.eqb a "") eqn:?
    | |- context [Nat.eqb (length ?l) 0] => destruct l
    | |- context [match ?x with Some _ => _ | None => _ end] => destruct x eqn:?
    end).

Ltac open_options opts :=
  destruct opts as [wr oct ask sp name description key username passphrase environments
                       noPrompt];
  unfold promptMissing, bind, get, perform, modify, ret, fail.

(** What [promptMissing] leaves alone. *)
Lemma promptMissing_frame (opts : CreateOptions) (w : World) :
  let '(r, opts', w', events) := run respond (promptMissing opts) w in
  (Writer opts' = Writer opts /\ Octopus opts' = Octopus opts /\ Ask opts' = Ask opts /\
   Spinner opts' = Spinner opts /\ NoPrompt opts' = NoPrompt opts) /\
  (Name opts <> "" -> Name opts' = Name opts) /\
  (Description opts <> "" -> Description opts' = Description opts) /\
  (Username opts <> "" -> Username opts' = Username opts) /\
  (KeyFileData opts <> [] -> KeyFileData opts' = KeyFileData opts) /\
  (Passphrase opts <> "" -> Passphrase opts' = Passphrase opts) /\
  (Environments opts <> None -> Environments opts' = Environments opts).
Proof.
  open_options opts. explore_prompts.
  all: repeat match goal with
         | H : String.eqb _ _ = true |- _ => apply String.eqb_eq in H; subst
         end.
  all: repeat split; intros; try reflexivity; congruence.
Qed.

(** X13: [promptMissing] keeps what was given: a name, description,
    username or passphrase that is not empty, key data that are not empty
    and environments that are not nil come out as they went in, whatever
    the user answers and also when a prompt fails; the writer, the SDK
    handle, the asker, the spinner and the no-prompt flag are never
    touched. *)
Theorem promptMissing_keeps_given_values (opts : CreateOptions) (w : World) :
  let '(r, opts', w', events) := run respond (promptMissing opts) w in
  (Writer opts' = Writer opts /\ Octopus opts' = Octopus opts /\ Ask opts' = Ask opts /\
   Spinner opts' = Spinner opts /\ NoPrompt opts' = NoPrompt opts) /\
  (Name opts <> "" -> Name opts' = Name opts) /\
  (Description opts <> "" -> Description opts' = Description opts) /\
  (Username opts <> "" -> Username opts' = Username opts) /\
  (KeyFileData opts <> [] -> KeyFileData opts' = KeyFileData opts) /\
  (Passphrase opts <> "" -> Passphrase opts' = Passphrase opts) /\
  (Environments opts <> None -> Environments opts' = Environments opts).
Proof. exact (promptMissing_frame opts w). Qed.

(** What a failed call does to [promptMissing], and what kinds of calls it
    makes at all. *)
Lemma promptMissing_summary (opts : CreateOptions) (w : World) :
  let '(r, opts', w', events) := run respond (promptMissing opts) w in
  Forall (fun ev => is_interaction (made ev) = true) events /\
  (r = Ok tt -> Forall (fun ev => failed ev = None) events) /\
  (forall ev e, ev ∈ events -> failed ev = Some e -> r = Err e /\ last events = Some ev).
Proof.
  open_options opts. explore_prompts.
  all: split; [repeat constructor|split; [intros Hok; try discriminate Hok; repeat constructor|]].
  all: intros ev err0 Hin Hfail.
  all: repeat (apply elem_of_cons in Hin as [->|Hin]);
    try (apply elem_of_nil in Hin; contradiction).
  all: simpl in Hfail; try discriminate; injection Hfail as <-.
  all: split; reflexivity.
Qed.

(** X14: [promptMissing] never asks for what was given: no prompt for a
    name, description, username or passphrase that is not empty, no prompt
    for a key path and no file read when there are key data, no selection
    of environments when they are not nil.  When it succeeds, it has asked
    for everything that was missing. *)
Theorem promptMissing_asks_for_the_missing_only (opts : CreateOptions) (w : World) :
  let '(r, opts', w', events) := run respond (promptMissing opts) w in
  ((Name opts <> "" -> called (asks "Name") events = false) /\
   (Description opts <> "" -> called (asks "Description") events = false) /\
   (Username opts <> "" -> called (asks "Username") events = false) /\
   (KeyFileData opts <> [] ->
    called (asks "Private Key File Path") events = false /\
    called is_ReadFile events = false) /\
   (Passphrase opts <> "" -> called (asks "Passphrase") events = false) /\
   (Environments opts <> None -> called is_MultiSelect events = false)) /\
  (r = Ok tt ->
   (Name opts = "" -> called (asks "Name") events = true) /\
   (Description opts = "" -> called (asks "Description") events = true) /\
   (Username opts = "" -> called (asks "Username") events = true) /\
   (KeyFileData opts = [] ->
    called (asks "Private Key File Path") events = true /\
    called is_ReadFile events = true) /\
   (Passphrase opts = "" -> called (asks "Passphrase") events = true) /\
   (Environments opts = None -> called is_MultiSelect events = true)).
Proof.
  open_options opts. explore_prompts.
  all: repeat match goal with
         | H : String.eqb _ _ = true |- _ => apply String.eqb_eq in H; subst
         | H : String.eqb _ _ = false |- _ => apply String.eqb_neq in H
         end.
  all: repeat split; intros; try reflexivity; try congruence; try discriminate.
Qed.


(** X16: when nothing is missing, [promptMissing] does nothing: no call,
    the options unchanged, no error. *)
Theorem promptMissing_nothing_missing (opts : CreateOptions) (w : World) :
  Name opts <> "" -> Description opts <> "" -> Username opts <> "" ->
  KeyFileData opts <> [] -> Passphrase opts <> "" -> Environments opts <> None ->
  run respond (promptMissing opts) w = (Ok tt, opts, w, []).
Proof.
  intros Hname Hdescription Husername Hkey Hpassphrase Henvironments.
  apply String.eqb_neq in Hname, Hdescription, Husername, Hpassphrase.
  open_options opts. simpl in *.
  rewrite Hname; simpl. rewrite Hdescription; simpl. rewrite Husername; simpl.
  destruct key; [congruence|]; simpl. rewrite Hpassphrase; simpl.
  destruct environments; [|congruence]. reflexivity.
Qed.


(** [CreateRun] is the prompts, when they are on, and then the sending of
    the account: the tactic runs the first and leaves one goal per path
    through the second. *)
Ltac split_answer q w :=
  first [ destruct (respond q w) as [[?|?] ?] eqn:?
        | destruct (respond q w) as [[?|] ?] eqn:?
        | destruct (respond q w) as [[] ?] eqn:?
        | destruct (respond q w) as [? ?] eqn:? ].

Ltac explore_sending :=
  repeat (simpl;
    match goal with
    | |- context [accounts_NewSSHKeyAccount ?n ?u ?k] =>
        destruct (accounts_NewSSHKeyAccount n u k) as [?|?] eqn:?
    | |- context [respond ?q ?w] => split_answer q w
    | |- context [String.eqb ?a ""] => destruct (String.eqb a "") eqn:?
    end).

Ltac enter_CreateRun opts w Hprompts :=
  unfold CreateRun; rewrite create_run_bind; simpl; rewrite create_run_bind;
  destruct (NoPrompt opts) eqn:HnoPrompt; simpl;
  [ pose proof I as Hprompts
  | pose proof (promptMissing_summary opts w) as Hprompts;
    destruct (run respond (promptMissing opts) w) as [[[[[]|promptError] prompted] w1] events1];
    simpl ];
  try match goal with
      | |- context [run respond (bind _ _ ?o) _] =>
          destruct o as [wr oct ask sp name description key username passphrase environments
                            noPrompt']
      end;
  unfold bind, get, perform, modify, ret, fail; explore_sending.

Lemma CreateRun_flag_set (opts : CreateOptions) (w : World) :
  NoPrompt opts = true ->
  let '(r, opts', w', events) := run respond (CreateRun opts) w in
  opts' = opts /\
  Forall (fun ev => is_interaction (made ev) = false) events /\
  (events = [] \/
   (exists account,
      map made events =
      [Spinner_Start (Spinner opts); Accounts_Add (Octopus opts) account;
       Spinner_Stop (Spinner opts)]) \/
   (exists account text,
      map made events =
      [Spinner_Start (Spinner opts); Accounts_Add (Octopus opts) account;
       Spinner_Stop (Spinner opts); fmt_Fprintf (Writer opts) text])).
Proof.
  intros Hflag. enter_CreateRun opts w Hprompts; try congruence.
  all: repeat split; try (repeat constructor; fail).
  all: first [left; reflexivity | right; left; eexists; reflexivity
             | right; right; do 2 eexists; reflexivity].
Qed.


Lemma prompts_send_nothing (events : list event) :
  Forall (fun ev => is_interaction (made ev) = true) events ->
  List.filter is_sending (map made events) = [] /\
  (forall octopus account, Accounts_Add octopus account ∈ map made events -> False).
Proof.
  induction 1 as [|ev rest Hev _ [IHfilter IHadd]]; simpl.
  - split; [reflexivity|]. intros ? ? Hin. apply elem_of_nil in Hin. exact Hin.
  - destruct ev as [q f]; simpl in *. split.
    + destruct q; simpl in *; try discriminate; exact IHfilter.
    + intros octopus account Hin. apply elem_of_cons in Hin as [Heq|Hin].
      * subst q. discriminate.
      * apply (IHadd octopus account Hin).
Qed.


(** X19: [CreateRun] stops at the first call that fails and returns that
    call's error as it came: the failed call is the last one made, except
    that a failed adding of the account is still followed by the stop of
    the spinner.  A run that succeeds has seen no call fail. *)
Theorem CreateRun_stops_at_first_error (opts : CreateOptions) (w : World) :
  let '(r, opts', w', events) := run respond (CreateRun opts) w in
  (r = Ok tt -> Forall (fun ev => failed ev = None) events) /\
  (forall ev e, ev ∈ events -> failed ev = Some e ->
     r = Err e /\
     (last events = Some ev \/
      (is_Add (made ev) = true /\
       exists before,
         events = (before ++ [ev; mkEvent (Spinner_Stop (Spinner opts')) None])%list))).
Proof.
  enter_CreateRun opts w Hprompts.
  all: try (destruct Hprompts as (_ & Hquiet & Hfirst); try specialize (Hquiet eq_refl)).
  all: split;
    [ intros Hok; try discriminate Hok;
      try (apply Forall_app; split; [assumption|]); repeat constructor; auto
    | intros ev err0 Hin Hfail ].
  all: try (apply elem_of_app in Hin as [Hin|Hin];
            [ exfalso; rewrite Forall_forall in Hquiet;
              rewrite (Hquiet ev Hin) in Hfail; discriminate | ]).
  all: try (destruct (Hfirst ev err0 Hin Hfail) as [Herr Hlast];
            first [discriminate Herr | injection Herr as ->; auto]).
  all: repeat (apply elem_of_cons in Hin as [->|Hin]);
    try (apply elem_of_nil in Hin; contradiction).
  all: simpl in Hfail; try discriminate; try (injection Hfail as <-).
  all: split; [reflexivity|].
  all: simpl; rewrite ?app_nil_r, ?last_app; simpl.
  all: first [ left; reflexivity
             | right; split; [reflexivity|];
               first [ eexists [_]; reflexivity
                     | eexists (_ ++ [_])%list; rewrite <- app_assoc; reflexivity ] ].
Qed.

(** X20: the account that [CreateRun] sends is the one
    [accounts.NewSSHKeyAccount] made from the name, the username and the
    base64 text of the key data that the options hold after the prompts,
    with the description and the environments of the options written into
    it, and with the passphrase written into it only when the passphrase is
    not empty.  It is sent through the SDK handle of the options. *)
Theorem CreateRun_sends_the_options (opts : CreateOptions) (w : World) :
  let '(r, opts', w', events) := run respond (CreateRun opts) w in
  forall octopus account,
    Accounts_Add octopus account ∈ map made events ->
    octopus = Octopus opts' /\
    exists sshAccount,
      accounts_NewSSHKeyAccount (Name opts') (Username opts')
        (accounts.core_NewSensitiveValue (b64_EncodeToString (KeyFileData opts')))
      = Ok sshAccount /\
      account =
      (if String.eqb (Passphrase opts') ""
       then fun a => a
       else accounts.set_PrivateKeyPassphrase
              (Some (accounts.core_NewSensitiveValue (Passphrase opts'))))
        (accounts.set_EnvironmentIDs (Environments opts')
           (accounts.set_Description (Description opts') sshAccount)).
Proof.
  enter_CreateRun opts w Hprompts.
  all: try (destruct Hprompts as (Hkinds & _);
            destruct (prompts_send_nothing _ Hkinds) as [_ Hnever]).
  all: intros octopus account Hin.
  all: simpl in Hin; rewrite ?app_nil_r, ?List.map_app in Hin; simpl in Hin.
  all: try (apply elem_of_app in Hin as [Hin|Hin]; [exfalso; apply (Hnever _ _ Hin)|]).
  all: try (exfalso; apply (Hnever _ _ Hin)).
  all: repeat (apply elem_of_cons in Hin as [Heq|Hin]);
    try (apply elem_of_nil in Hin; contradiction); try discriminate Heq.
  all: injection Heq as -> ->.
  all: split; [reflexivity|]; eexists; split; [eassumption|reflexivity].
Qed.

Lemma CreateRun_adds_through_Octopus (opts : CreateOptions) (w : World) :
  forall octopus account,
    Accounts_Add octopus account ∈ map made (snd (run respond (CreateRun opts) w)) ->
    octopus = Octopus opts.
Proof.
  pose proof (promptMissing_frame opts w) as Hframe. revert Hframe.
  enter_CreateRun opts w Hprompts.
  all: try (destruct Hprompts as (Hkinds & _);
            destruct (prompts_send_nothing _ Hkinds) as [_ Hnever]).
  all: intros Hframe octopus account Hin; simpl in Hin.
  all: rewrite ?app_nil_r, ?List.map_app in Hin; simpl in Hin.
  all: try (apply elem_of_app in Hin as [Hin|Hin]; [exfalso; apply (Hnever _ _ Hin)|]).
  all: try (exfalso; apply (Hnever _ _ Hin)).
  all: repeat (apply elem_of_cons in Hin as [Heq|Hin]);
    try (apply elem_of_nil in Hin; contradiction); try discriminate Heq.
  all: injection Heq as -> _.
  all: try reflexivity.
  all: destruct Hframe as ((_ & Hoct & _) & _); simpl in Hoct; congruence.
Qed.

(** The part of [RunE] before [CreateRun], one goal per path; [CreateRun]
    itself stays folded. *)
Ltac explore_RunE :=
  repeat (simpl;
    match goal with
    | |- context [respond ?q ?w] => split_answer q w
    | |- context [negb (String.eqb ?a "")] => destruct (String.eqb a "") eqn:?
    | |- context [match ?x with Some _ => _ | None => _ end] => destruct x eqn:?
    end).

Ltac enter_RunE opts theRun :=
  unfold RunE, create.RunE;
  match goal with
  | |- context [create.CreateRun ?a ?b ?c ?d] =>
      remember (create.CreateRun a b c d) as theRun eqn:HtheRun
  end;
  destruct opts as [wr oct ask sp name description key username passphrase environments
                       noPrompt];
  unfold bind, get, perform, modify, ret, fail; explore_RunE.

(** X21: when the command factory cannot give the space-scoped client,
    [RunE] returns that error at once: no file is looked at, nobody is
    asked, nothing is sent, and the options are as the flags left them. *)
Theorem RunE_without_client (descriptionFilePath keyFilePath : string)
        (opts : CreateOptions) (w : World) e w1 :
  respond f_GetSpacedClient w = (Err e, w1) ->
  run respond (RunE descriptionFilePath keyFilePath opts) w =
  (Err e, opts, w1, [mkEvent f_GetSpacedClient (Some e)]).
Proof.
  intros Hclient. unfold RunE, create.RunE, bind, perform, fail. simpl.
  rewrite Hclient. reflexivity.
Qed.

(** X22: [RunE] checks a file before it reads it.  When
    validation.IsExistingFile rejects the path of the description file,
    [RunE] returns that error; the file is not read, the key file is not
    looked at, nobody is asked and nothing is sent.  The options have only
    gained the client and the writer. *)
Theorem RunE_rejected_description_file (descriptionFilePath keyFilePath : string)
        (opts : CreateOptions) (w : World) client w1 writer w2 e w3 :
  descriptionFilePath <> "" ->
  respond f_GetSpacedClient w = (Ok client, w1) ->
  respond cmd_OutOrStdout w1 = (writer, w2) ->
  respond (call_IsExistingFile descriptionFilePath) w2 = (Some e, w3) ->
  run respond (RunE descriptionFilePath keyFilePath opts) w =
  (Err e, set_Writer writer (set_Octopus client opts), w3,
   [mkEvent f_GetSpacedClient None; mkEvent cmd_OutOrStdout None;
    mkEvent (call_IsExistingFile descriptionFilePath) (Some e)]).
Proof.
  intros Hpath Hclient Hwriter Hcheck. apply String.eqb_neq in Hpath.
  unfold RunE, create.RunE, bind, get, perform, modify, ret, fail. simpl.
  rewrite Hclient. simpl. rewrite Hwriter. simpl. rewrite Hpath. simpl.
  rewrite Hcheck. reflexivity.
Qed.

(** X23: when the command factory says that prompting is off, [RunE] asks
    the user nothing: no prompt and no selection of environments in the
    whole run, whatever is missing from the options. *)
Theorem RunE_prompting_off (descriptionFilePath keyFilePath : string)
        (opts : CreateOptions) (w : World) :
  (forall w0, fst (respond f_IsPromptEnabled w0) = false) ->
  Forall (fun ev =>
            match made ev with
            | opts_Ask _ _ _ => False
            | selectors_EnvironmentsMultiSelect _ _ _ _ => False
            | _ => True
            end)
         (snd (run respond (RunE descriptionFilePath keyFilePath opts) w)).
Proof.
  intros Hoff.
  assert (Htail : forall o w0,
             NoPrompt o = true ->
             Forall (fun ev : event =>
                       match made ev with
                       | opts_Ask _ _ _ => False
                       | selectors_EnvironmentsMultiSelect _ _ _ _ => False
                       | _ => True
                       end)
                    (snd (run respond (CreateRun o) w0))).
  { intros o w0 Hflag. pose proof (CreateRun_flag_set o w0 Hflag) as Hquiet.
    destruct (run respond (CreateRun o) w0) as [[[r o'] w'] events].
    destruct Hquiet as (_ & Hquiet & _). simpl.
    eapply Forall_impl; [exact Hquiet|].
    intros [q f] Hq; simpl in *. destruct q; simpl in *; try discriminate; exact I. }
  enter_RunE opts theRun.
  all: repeat match goal with
         | H : respond f_IsPromptEnabled ?w0 = (?b, _) |- _ =>
             let Hb := fresh "Hb" in
             pose proof (Hoff w0) as Hb; rewrite H in Hb; simpl in Hb;
             try discriminate Hb; clear H
         end.
  all: subst theRun; simpl.
  all: repeat match goal with
         | |- context [run respond (CreateRun ?o) ?w0] =>
             let Ht := fresh "Ht" in
             pose proof (Htail o w0 eq_refl) as Ht;
             destruct (run respond (CreateRun o) w0) as [[[? ?] ?] ?]; simpl in Ht
         end.
  all: simpl; repeat (first [assumption | constructor; simpl; trivial]).
Qed.

(** X24: the account is sent through the client that [RunE] got at the
    start from the command factory, the one bound to the resolved space. *)
Theorem RunE_sends_through_resolved_client (descriptionFilePath keyFilePath : string)
        (opts : CreateOptions) (w : World) client w1 :
  respond f_GetSpacedClient w = (Ok client, w1) ->
  forall octopus account,
    Accounts_Add octopus account
      ∈ map made (snd (run respond (RunE descriptionFilePath keyFilePath opts) w)) ->
    octopus = client.
Proof.
  intros Hclient.
  pose proof (fun o w0 => CreateRun_adds_through_Octopus o w0) as Htail.
  enter_RunE opts theRun.
  all: try congruence.
  all: subst theRun; simpl.
  all: repeat match goal with
         | |- context [run respond (CreateRun ?o) ?w0] =>
             let Ht := fresh "Ht" in
             pose proof (Htail o w0) as Ht;
             destruct (run respond (CreateRun o) w0) as [[[? ?] ?] ?]; simpl in Ht
         end.
  all: intros octopus account Hin; simpl in Hin.
  all: repeat (apply elem_of_cons in Hin as [Heq|Hin]);
    try (apply elem_of_nil in Hin; contradiction); try discriminate Heq.
  all: try (rewrite (Ht octopus account Hin)).
  all: congruence.
Qed.

End create_properties.

(** ** The properties of the command at work *)

Import create create_scripted.


(** X16 on options with everything given. *)
Lemma promptMissing_nothing_missing_witness :
  run (respond cooperative) (promptMissing Dim (complete false)) 0
  = (Ok tt, complete false, 0, []).
Proof.
  apply (promptMissing_nothing_missing Dim (respond cooperative) (complete false) 0);
    discriminate.
Defined.


(** X19 on a server that refuses the account. *)
Lemma CreateRun_stops_at_first_error_witness :
  fst (fst (fst (run (respond refused)
                     (CreateRun NewSSHKeyAccount encode Dim Dimf (complete false)) 0)))
  = Err (errors_New "forbidden").
Proof.
  pose proof (CreateRun_stops_at_first_error NewSSHKeyAccount encode Dim Dimf
                (respond refused) (complete false) 0) as H.
  destruct (run (respond refused)
                (CreateRun NewSSHKeyAccount encode Dim Dimf (complete false)) 0)
    as [[[r opts'] w'] events] eqn:Hrun.
  vm_compute in Hrun. injection Hrun as <- <- <- <-.
  destruct H as [_ H].
  apply (H (mkEvent (Accounts_Add tt
                       {| accounts.Name := "deploy"; accounts.Username := "octopus";
                          accounts.PrivateKeyFile :=
                            accounts.core_NewSensitiveValue "-----BEGIN KEY-----";
                          accounts.Description := "deployment key";
                          accounts.EnvironmentIDs := Some ["Environments-1"];
                          accounts.PrivateKeyPassphrase :=
                            Some (accounts.core_NewSensitiveValue "secret") |})
                    (Some (errors_New "forbidden")))
           (errors_New "forbidden")).
  - apply elem_of_cons; right. apply elem_of_cons; left. reflexivity.
  - reflexivity.
Defined.

(** X21 on a run without a space-scoped client. *)
Lemma RunE_without_client_witness :
  run (respond automation) (RunE NewSSHKeyAccount encode Dim Dimf "notes.md" "id_rsa" (bare false)) 0
  = (Err (errors_New "space must be specified"), bare false, 1,
     [mkEvent f_GetSpacedClient (Some (errors_New "space must be specified"))]).
Proof.
  apply (RunE_without_client NewSSHKeyAccount encode Dim Dimf (respond automation)).
  reflexivity.
Defined.

(** X22 on a description file that does not exist. *)
Lemma RunE_rejected_description_file_witness :
  fst (fst (fst (run (respond unattended)
                     (RunE NewSSHKeyAccount encode Dim Dimf "notes.md" "id_rsa" (bare false)) 0)))
  = Err (errors_New "no such file").
Proof.
  rewrite (RunE_rejected_description_file NewSSHKeyAccount encode Dim Dimf (respond unattended)
             "notes.md" "id_rsa" (bare false) 0 tt 1 tt 2 (errors_New "no such file") 3);
    [reflexivity | discriminate | reflexivity | reflexivity | reflexivity].
Defined.

(** X23 on options with nothing given and prompting off. *)
Lemma RunE_prompting_off_witness :
  Forall (fun ev =>
            match made ev with
            | opts_Ask _ _ _ => False
            | selectors_EnvironmentsMultiSelect _ _ _ _ => False
            | _ => True
            end)
         (snd (run (respond unattended)
                   (RunE NewSSHKeyAccount encode Dim Dimf "" "" (bare false)) 0)).
Proof.
  apply (RunE_prompting_off NewSSHKeyAccount encode Dim Dimf (respond unattended)).
  intros w0. reflexivity.
Defined.

(** X24 on a run that sends the account. *)
Lemma RunE_sends_through_resolved_client_witness :
  Accounts_Add tt
    {| accounts.Name := "deploy"; accounts.Username := "octopus";
       accounts.PrivateKeyFile := accounts.core_NewSensitiveValue "-----BEGIN KEY-----";
       accounts.Description := "deployment key";
       accounts.EnvironmentIDs := Some ["Environments-1"];
       accounts.PrivateKeyPassphrase := Some (accounts.core_NewSensitiveValue "secret") |}
    ∈ map made (snd (run (respond cooperative)
                         (RunE NewSSHKeyAccount encode Dim Dimf "" "" (complete false)) 0)) /\
  Ok tt = fst (respond cooperative f_GetSpacedClient 0).
Proof.
  assert (Hin : Accounts_Add tt
    {| accounts.Name := "deploy"; accounts.Username := "octopus";
       accounts.PrivateKeyFile := accounts.core_NewSensitiveValue "-----BEGIN KEY-----";
       accounts.Description := "deployment key";
       accounts.EnvironmentIDs := Some ["Environments-1"];
       accounts.PrivateKeyPassphrase := Some (accounts.core_NewSensitiveValue "secret") |}
    ∈ map made (snd (run (respond cooperative)
                         (RunE NewSSHKeyAccount encode Dim Dimf "" "" (complete false)) 0))).
  { apply list_elem_of_In. vm_compute. do 5 right. left. reflexivity. }
  split; [exact Hin|].
  exact (f_equal Ok
           (RunE_sends_through_resolved_client NewSSHKeyAccount encode Dim Dimf
              (respond cooperative) "" "" (complete false) 0 tt 1 eq_refl tt _ Hin)).
Defined.
